(** * The WSA sweep device and the peak-finding driver

A shallow embedding of [src/wsa_sweep_device.c] and of
[examples/peakfind/peakfind.c], and the properties of the sweep
pipeline checked against it.

Integers are [Z] with the wrap-around of their C type written out.
Calls into the device library ([wsa_flush_data], [wsa_capture_block],
[wsa_read_vrt_packet], ...) are recorded, in order, in the device state;
what the device answers is taken from an environment, so every theorem
holds for every possible behaviour of the instrument.  Diagnostics
([printf], [benchmark], [gettimeofday]) and the functions that only
allocate or free a handle are not modelled. *)

From Stdlib Require Import String.
From Stdlib Require Import ZArith List Bool Lia.
Import ListNotations.
Open Scope Z_scope.

(** ** C integer types *)

Module CInt.

Definition wrap (bits x : Z) : Z := x mod 2 ^ bits.

Definition u32 (x : Z) : Z := wrap 32 x.
Definition u64 (x : Z) : Z := wrap 64 x.

(** conversion of an unsigned 32-bit value to [int] *)
Definition to_int (x : Z) : Z :=
  let y := wrap 32 x in if y <? 2 ^ 31 then y else y - 2 ^ 32.

Definition is_u32 (x : Z) : Prop := 0 <= x < 2 ^ 32.
Definition is_u64 (x : Z) : Prop := 0 <= x < 2 ^ 64.

End CInt.

(** ** What the missing headers declare

[wsa_sweep_device.h] and [wsa_lib.h] are not among the sources.  The
constants the code takes from them, and the width of the [buflen] field
of [struct wsa_power_spectrum_config], are parameters of the model. *)

Record wsa_constants : Type := {
  IF_PACKET_TYPE : Z;
  CONTEXT_PACKET_TYPE : Z;
  EXTENSION_PACKET_TYPE : Z;
  RECEIVER_STREAM_ID : Z;
  DIGITIZER_STREAM_ID : Z;
  EXTENSION_STREAM_ID : Z;
  I16Q16_DATA_STREAM_ID : Z;
  I16_DATA_STREAM_ID : Z;
  I32_DATA_STREAM_ID : Z;
  WSA_RFE_SHN_STRING : string;
  buflen_bits : Z
}.

(** A concrete choice, for running the model: distinct packet types and
    stream ids, and a [buflen] as wide as the [uint32_t buflen] parameter
    of [peakfind] that receives it (and as the [%d] that prints it). *)
Definition wsa_lib : wsa_constants := {|
  IF_PACKET_TYPE := 1;
  CONTEXT_PACKET_TYPE := 4;
  EXTENSION_PACKET_TYPE := 5;
  RECEIVER_STREAM_ID := 0x90000001;
  DIGITIZER_STREAM_ID := 0x90000002;
  EXTENSION_STREAM_ID := 0x90000004;
  I16Q16_DATA_STREAM_ID := 0x90000003;
  I16_DATA_STREAM_ID := 0x90000005;
  I32_DATA_STREAM_ID := 0x90000006;
  WSA_RFE_SHN_STRING := "SHN";
  buflen_bits := 32
|}.

(** A cell of a [malloc]ed buffer: [None] until it is written. *)
Definition cell (A : Type) : Type := option A.

(** ** The peak finder and the loop of [main] that prints its results *)

Module PeakFind.
Section WithAmp.

(** The amplitudes are C [float]s.  No function of the sources computes
    with one, so their type is left open. *)
Variable amp : Type.

(** The two output arrays of [peakfind]. *)
Record outputs : Type := {
  pfreq : list Z;
  pamp : list amp
}.

(** The locals and the output arrays, as the loop sees them. *)
Record loop_state : Type := {
  found : Z;
  out : outputs
}.

(** The body of [for (i=0; i<buflen; i++) { }]: it is empty. *)
Definition loop_body (buf : list (cell amp)) (hzperbin peaks i : Z)
    (st : loop_state) : loop_state := st.

(** [for (i=0; i<buflen; i++)]: [n] iterations left, counter at [i]. *)
Fixpoint for_loop (n : nat) (buf : list (cell amp)) (hzperbin peaks i : Z)
    (st : loop_state) : loop_state :=
  match n with
  | O => st
  | S n' =>
      for_loop n' buf hzperbin peaks (CInt.u32 (i + 1))
        (loop_body buf hzperbin peaks i st)
  end.

(** [int peakfind(float *buf, uint32_t buflen, uint32_t hzperbin,
    int peaks, uint64_t *pfreq, float *pamp)]: the value returned and the
    output arrays after the call. *)
Definition peakfind (buf : list (cell amp)) (buflen hzperbin peaks : Z)
    (o : outputs) : Z * outputs :=
  let st := for_loop (Z.to_nat buflen) buf hzperbin peaks 0
              {| found := 0; out := o |} in
  (0, out st).

Definition MAXPEAKS : Z := 256.

(** [for (i=0; i<peaks; i++) printf("  %0.2f dBm @ %llu\n", pamp[i],
    pfreq[i] + fstart)]: the lines printed, [None] when the loop reads
    past the end of an array. *)
Definition print_results (fstart peaks : Z) (o : outputs)
    : option (list (amp * Z)) :=
  if (peaks <=? Z.of_nat (length (pamp o)))
     && (peaks <=? Z.of_nat (length (pfreq o)))
  then Some (firstn (Z.to_nat peaks)
               (combine (pamp o)
                  (map (fun f => CInt.u64 (f + fstart)) (pfreq o))))
  else None.

End WithAmp.

Arguments pfreq {amp} _.
Arguments pamp {amp} _.
Arguments found {amp} _.
Arguments out {amp} _.
Arguments peakfind {amp} _ _ _ _ _.
Arguments print_results {amp} _ _ _.

End PeakFind.

(** ** The sweep device *)

Module Sweep.

(** *** The instrument, as the sweep code sees it *)

(** The calls made on the device, with their arguments. *)
Inductive dev_op : Type :=
| Op_flush_data
| Op_set_rfe_input_mode (mode : string)
| Op_set_samples_per_packet (n : Z)
| Op_set_packets_per_block (n : Z)
| Op_capture_block
| Op_read_vrt_packet (samples_per_packet timeout : Z).

Definition is_capture_block (o : dev_op) : bool :=
  match o with Op_capture_block => true | _ => false end.


(** [struct wsa_vrt_packet_header], with the fields the code reads. *)
Record wsa_vrt_packet_header : Type := {
  stream_id : Z;
  packet_type : Z;
  pkt_count : Z;
  samples_per_packet : Z;
  time_stamp_sec : Z;
  time_stamp_psec : Z
}.

(** What the instrument answers: the result of [wsa_capture_block], and
    for the n-th call of [wsa_read_vrt_packet] its result and the header
    it stores. *)
Record wsa_device : Type := {
  capture_block_result : Z;
  read_reply : nat -> Z * wsa_vrt_packet_header
}.

(** The device state the model keeps: the calls made so far, oldest
    first, and how many packets were read. *)
Record dev_state : Type := {
  ops : list dev_op;
  reads_done : nat
}.

Definition dev_init : dev_state := {| ops := []; reads_done := 0 |}.

(** *** A state monad for the calls on the device *)

Definition Dev (A : Type) : Type := dev_state -> A * dev_state.

Definition ret {A : Type} (a : A) : Dev A := fun s => (a, s).

Definition bind {A B : Type} (m : Dev A) (k : A -> Dev B) : Dev B :=
  fun s => let (a, s') := m s in k a s'.

Declare Scope dev_scope.
Delimit Scope dev_scope with dev.
Notation "x <- m ;; k" := (bind m (fun x => k))
    (at level 61, m at next level, right associativity) : dev_scope.
Notation "m ;;; k" := (bind m (fun _ => k))
    (at level 61, right associativity) : dev_scope.

Definition call (o : dev_op) : Dev unit :=
  fun s => (tt, {| ops := ops s ++ [o]; reads_done := reads_done s |}).

Definition wsa_flush_data : Dev unit := call Op_flush_data.

Definition wsa_set_rfe_input_mode (mode : string) : Dev unit :=
  call (Op_set_rfe_input_mode mode).

Definition wsa_set_samples_per_packet (n : Z) : Dev unit :=
  call (Op_set_samples_per_packet n).

Definition wsa_set_packets_per_block (n : Z) : Dev unit :=
  call (Op_set_packets_per_block n).

Definition wsa_capture_block (dev : wsa_device) : Dev Z :=
  fun s => (capture_block_result dev,
            {| ops := ops s ++ [Op_capture_block];
               reads_done := reads_done s |}).

Definition wsa_read_vrt_packet (dev : wsa_device)
    (samples_per_packet timeout : Z) : Dev (Z * wsa_vrt_packet_header) :=
  fun s => (read_reply dev (reads_done s),
            {| ops := ops s ++ [Op_read_vrt_packet samples_per_packet timeout];
               reads_done := S (reads_done s) |}).

Section WithConstants.

Variable amp : Type.
Variable K : wsa_constants.

(** *** [wsa_dump_vrt_packet_header]: how a header is labelled *)

Inductive stream_label : Type :=
  | CTX_RECEIVER | CTX_DIGITIZER | CTX_EXTENSION
  | DATA_I16Q16 | DATA_I16 | DATA_I32
  | UNKNOWN_STREAM (id : Z).

Inductive type_label : Type :=
  | TYPE_IF | TYPE_CONTEXT | TYPE_EXTENSION | TYPE_UNKNOWN (t : Z).

Definition dump_stream_label (header : wsa_vrt_packet_header)
    : stream_label :=
  if stream_id header =? RECEIVER_STREAM_ID K then CTX_RECEIVER
  else if stream_id header =? DIGITIZER_STREAM_ID K then CTX_DIGITIZER
  else if stream_id header =? EXTENSION_STREAM_ID K then CTX_EXTENSION
  else if stream_id header =? I16Q16_DATA_STREAM_ID K then DATA_I16Q16
  else if stream_id header =? I16_DATA_STREAM_ID K then DATA_I16
  else if stream_id header =? I32_DATA_STREAM_ID K then DATA_I32
  else UNKNOWN_STREAM (stream_id header).

Definition dump_type_label (header : wsa_vrt_packet_header)
    : type_label :=
  if packet_type header =? IF_PACKET_TYPE K then TYPE_IF
  else if packet_type header =? CONTEXT_PACKET_TYPE K then TYPE_CONTEXT
  else if packet_type header =? EXTENSION_PACKET_TYPE K
       then TYPE_EXTENSION
  else TYPE_UNKNOWN (packet_type header).

(** *** [wsa_power_spectrum_alloc] *)

(** [struct wsa_power_spectrum_config], with the fields the code
    assigns; [buf_addr] is the pointer, [buf] the memory it points to. *)
Record wsa_power_spectrum_config : Type := {
  fstart : Z;
  fstop : Z;
  rbw : Z;
  buflen : Z;
  buf_addr : Z;
  buf : list (cell amp)
}.

(** The two [malloc] calls of the function: the pointer the first one
    returns, and the pointer the second returns for a size in bytes.
    0 is [NULL]. *)
Record allocator : Type := {
  malloc_cfg : Z;
  malloc_buf : Z -> Z
}.

(** What [*pscfg] holds when the function returns: it was not assigned,
    it points to a struct that was freed, or it points to a struct. *)
Inductive pscfg_ptr : Type :=
| Pscfg_unset
| Pscfg_freed
| Pscfg (cfg : wsa_power_spectrum_config).

(** The function returns [r] with [*pscfg] as given, or divides by
    zero. *)
Inductive alloc_result : Type :=
| Alloc_return (r : Z) (pscfg : pscfg_ptr)
| Alloc_div_by_zero.

Definition sizeof_float : Z := 4.

(** [fstart] and [fstop] are [uint64_t], [rbw] is a [uint32_t]; [mode]
    is not used.  The buffer has [buflen] cells, none of them written
    (the product [sizeof(float) * buflen] is taken not to overflow
    [size_t]). *)
Definition wsa_power_spectrum_alloc (heap : allocator)
    (fstart fstop rbw : Z) (mode : string) : alloc_result :=
  if malloc_cfg heap =? 0 then Alloc_return (-1) Pscfg_unset
  else if rbw =? 0 then Alloc_div_by_zero
  else
    let buflen :=
      CInt.wrap (buflen_bits K) (CInt.u64 (fstop - fstart) / rbw) in
    let addr := malloc_buf heap (sizeof_float * buflen) in
    if addr =? 0 then Alloc_return (-1) Pscfg_freed
    else Alloc_return 0
           (Pscfg {| fstart := fstart; fstop := fstop; rbw := rbw;
                     buflen := buflen; buf_addr := addr;
                     buf := repeat None (Z.to_nat buflen) |}).

(** *** [wsa_capture_power_spectrum] *)

(** How the [while(1)] loop is left: by [return r], by [break] with the
    header just read, or not yet. *)
Inductive loop_exit : Type :=
| Loop_return (r : Z)
| Loop_break (header : wsa_vrt_packet_header)
| Loop_running.

(** The loop that reads packets until a data packet comes, for at most
    [fuel] iterations.  The sample buffers it poisons and fills are
    locals that nothing reads afterwards; they are left out. *)
Fixpoint read_loop (dev : wsa_device) (fuel : nat) : Dev loop_exit :=
  match fuel with
  | O => ret Loop_running
  | S fuel' =>
      (r <- wsa_read_vrt_packet dev 1024 5000 ;;
       let (result, header) := r in
       if result <? 0 then ret (Loop_return (-1))
       else if packet_type header =? IF_PACKET_TYPE K
            then ret (Loop_break header)
            else read_loop dev fuel')%dev
  end.

(** What the caller has after the call: the value returned ([None]
    while the loop is still running), [*buf], the config with its
    buffer, and the header the loop stopped on. *)
Record capture_result : Type := {
  status : option Z;
  bufp : Z;
  cfg_after : wsa_power_spectrum_config;
  header_after : option wsa_vrt_packet_header
}.

(** [buf] points to a variable of the caller that holds [bufp]. *)
Definition wsa_capture_power_spectrum (dev : wsa_device) (fuel : nat)
    (cfg : wsa_power_spectrum_config) (bufp : Z) : Dev capture_result :=
  let bufp := if bufp =? 0 then bufp else buf_addr cfg in
  let finish st h :=
    {| status := st; bufp := bufp; cfg_after := cfg;
       header_after := h |} in
  (wsa_flush_data ;;;
   wsa_set_rfe_input_mode (WSA_RFE_SHN_STRING K) ;;;
   wsa_set_samples_per_packet 1024 ;;;
   wsa_set_packets_per_block 1 ;;;
   result <- wsa_capture_block dev ;;
   if result <? 0 then ret (finish (Some (-1)) None)
   else
     e <- read_loop dev fuel ;;
     match e with
     | Loop_return r => ret (finish (Some r) None)
     | Loop_break header => ret (finish (Some 0) (Some header))
     | Loop_running => ret (finish None None)
     end)%dev.

(** *** The calls one capture makes *)

Definition read_op : dev_op := Op_read_vrt_packet 1024 5000.

(** The calls up to and including the trigger, for a given mode. *)
Definition setup_ops (mode : string) : list dev_op :=
  [Op_flush_data; Op_set_rfe_input_mode mode;
   Op_set_samples_per_packet 1024; Op_set_packets_per_block 1;
   Op_capture_block].

(** The device state once the capture is triggered. *)
Definition triggered (s : dev_state) : dev_state :=
  {| ops := ops s ++ setup_ops (WSA_RFE_SHN_STRING K);
     reads_done := reads_done s |}.

(** The device state [n] packet reads later. *)
Definition after_reads (s : dev_state) (n : nat) : dev_state :=
  {| ops := ops s ++ repeat read_op n;
     reads_done := (reads_done s + n)%nat |}.

(** The number of captures triggered. *)
Definition captures (l : list dev_op) : nat :=
  length (filter is_capture_block l).

(** A reply of [wsa_read_vrt_packet] that the loop skips: the read
    succeeded and the packet is not an IF packet. *)
Definition skipped (r : Z * wsa_vrt_packet_header) : Prop :=
  0 <= fst r /\ packet_type (snd r) <> IF_PACKET_TYPE K.

(** A reply that carries an IF packet. *)
Definition carries_if (r : Z * wsa_vrt_packet_header) : Prop :=
  0 <= fst r /\ packet_type (snd r) = IF_PACKET_TYPE K.

(** A reply that reports a failure. *)
Definition failed (r : Z * wsa_vrt_packet_header) : Prop := fst r < 0.

End WithConstants.

Arguments fstart {amp} _.
Arguments fstop {amp} _.
Arguments rbw {amp} _.
Arguments buflen {amp} _.
Arguments buf_addr {amp} _.
Arguments buf {amp} _.
Arguments Pscfg_unset {amp}.
Arguments Pscfg_freed {amp}.
Arguments Pscfg {amp} _.
Arguments Alloc_return {amp} _ _.
Arguments Alloc_div_by_zero {amp}.
Arguments status {amp} _.
Arguments bufp {amp} _.
Arguments cfg_after {amp} _.
Arguments header_after {amp} _.
Arguments wsa_capture_power_spectrum {amp} _ _ _ _ _ _.

End Sweep.

(** ** The driver: [main] of [peakfind.c] once its options are parsed and
  the device is open *)

Module Driver.
Import Sweep PeakFind.

Section WithConstants.

Variable amp : Type.
Variable K : wsa_constants.

(** [main] prints these lines, is still inside the read loop, or has
    left defined behaviour (it used a [pscfg] that was not set up,
    divided by zero, or read past the end of an array). *)
Inductive main_result : Type :=
| Main_printed (lines : list (amp * Z))
| Main_running
| Main_undefined.

(** [fstart], [fstop] and [rbw] are [uint64_t] in [main], [peaks] is a
    [uint32_t]; [psbuf] is what the variable of that name holds, [o]
    what the arrays [pfreq] and [pamp] hold.  The results of the
    allocation and of the capture are not looked at. *)
Definition main_sweep (dev : wsa_device) (heap : allocator)
    (fuel : nat) (fstart fstop rbw peaks : Z) (mode : string)
    (psbuf : Z) (o : outputs amp) : Dev main_result :=
  match wsa_power_spectrum_alloc amp K heap fstart fstop
          (CInt.u32 rbw) mode with
  | Alloc_return _ (Pscfg pscfg) =>
      (c <- wsa_capture_power_spectrum K dev fuel pscfg psbuf ;;
       match status c with
       | None => ret Main_running
       | Some _ =>
           if rbw =? 0 then ret Main_undefined
           else
             let pscfg := cfg_after c in
             let hzperbin := CInt.u64 (fstop - fstart) / rbw in
             let '(_, o') :=
               peakfind (buf pscfg) (CInt.u32 (buflen pscfg))
                 (CInt.u32 hzperbin) (CInt.to_int peaks) o in
             match print_results fstart peaks o' with
             | Some lines => ret (Main_printed lines)
             | None => ret Main_undefined
             end
       end)%dev
  | _ => ret Main_undefined
  end.

End WithConstants.

Arguments Main_printed {amp} _.
Arguments Main_running {amp}.
Arguments Main_undefined {amp}.
Arguments main_sweep {amp} _ _ _ _ _ _ _ _ _ _ _ _.

End Driver.

(** ** What the specification says, in its own words

These definitions follow the text of the specification, not the code;
the code is compared with them below. *)

Module Spec.
Import Sweep.

(** bin_count = floor((fstop - fstart) / rbw) *)
Definition bin_count (fstart fstop rbw : Z) : Z := (fstop - fstart) / rbw.

(** bin i corresponds to frequency fstart + i * rbw *)
Definition bin_frequency (fstart rbw : Z) (i : nat) : Z :=
  fstart + Z.of_nat i * rbw.

(** bins_per_capture is half the samples-per-packet *)
Definition bins_per_capture (samples_per_packet : Z) : Z :=
  samples_per_packet / 2.

(** step_count = ceil(bin_count / bins_per_capture) *)
Definition step_count (bin_count bins_per_capture : Z) : Z :=
  (bin_count + bins_per_capture - 1) / bins_per_capture.

(** fstop <= fstart, rbw <= 0, or bin_count <= 0 *)
Definition invalid_plan (fstart fstop rbw : Z) : Prop :=
  fstop <= fstart \/ rbw <= 0 \/ bin_count fstart fstop rbw <= 0.


(** A bin whose amplitude is >= each existing neighbour's; amplitudes
    are integers here. *)
Definition ge_neighbour (buf : list Z) (a : Z) (j : option nat) : bool :=
  match j with
  | None => true
  | Some j =>
      match nth_error buf j with
      | Some b => b <=? a
      | None => true
      end
  end.

Definition is_local_max (buf : list Z) (i : nat) : bool :=
  match nth_error buf i with
  | None => false
  | Some a =>
      ge_neighbour buf a (match i with O => None | S j => Some j end)
      && ge_neighbour buf a (Some (S i))
  end.

Definition local_max_count (buf : list Z) : nat :=
  length (filter (is_local_max buf) (seq 0 (length buf))).

(** A returned (amplitude, frequency) pair is a peak of the spectrum. *)
Definition is_peak_of (buf : list Z) (fstart rbw : Z) (p : Z * Z) : Prop :=
  exists i, is_local_max buf i = true
            /\ nth_error buf i = Some (fst p)
            /\ snd p = bin_frequency fstart rbw i.

End Spec.

(** ** Concrete plans, devices and spectra *)

Module Inputs.
Import Sweep PeakFind.

(** The defaults of [main]: 2 GHz to 3 GHz in bins of 100 kHz. *)
Definition fstart0 : Z := 2000000000.
Definition fstop0 : Z := 3000000000.
Definition rbw0 : Z := 100000.

(** A heap on which both allocations succeed. *)
Definition heap_ok : allocator :=
  {| malloc_cfg := 0x1000; malloc_buf := fun _ => 0x2000 |}.

Definition header (stream type : Z) : wsa_vrt_packet_header :=
  {| stream_id := stream; packet_type := type; pkt_count := 0;
     samples_per_packet := 1024; time_stamp_sec := 0;
     time_stamp_psec := 0 |}.

Definition if_header : wsa_vrt_packet_header :=
  header (I16Q16_DATA_STREAM_ID wsa_lib) (IF_PACKET_TYPE wsa_lib).

Definition receiver_header : wsa_vrt_packet_header :=
  header (RECEIVER_STREAM_ID wsa_lib) (CONTEXT_PACKET_TYPE wsa_lib).

(** A context packet whose stream id is none of the known ones. *)
Definition unknown_header : wsa_vrt_packet_header :=
  header 0xdeadbeef (CONTEXT_PACKET_TYPE wsa_lib).

(** The first packet read is the IF packet. *)
Definition dev_if_first : wsa_device :=
  {| capture_block_result := 0; read_reply := fun _ => (0, if_header) |}.

(** A receiver context packet and a packet of an unknown stream come
    before the IF packet. *)
Definition dev_context_first : wsa_device :=
  {| capture_block_result := 0;
     read_reply := fun n =>
       match n with
       | O => (0, receiver_header)
       | S O => (0, unknown_header)
       | _ => (0, if_header)
       end |}.

(** The first read fails with the error code -2. *)
Definition dev_read_fails : wsa_device :=
  {| capture_block_result := 0;
     read_reply := fun _ => (-2, header 0 0) |}.

(** A config for the default plan with a buffer of [n] unwritten bins. *)
Definition cfg0 (n : Z) : wsa_power_spectrum_config Z :=
  {| fstart := fstart0; fstop := fstop0; rbw := rbw0;
     buflen := n; buf_addr := 0x2000; buf := repeat None (Z.to_nat n) |}.

(** The spectrum of the specification's scenario in small: one maximum of
    -20 dBm between two bins of -40 dBm. *)
Definition one_peak : list Z := [-40; -20; -40].

(** Output arrays that hold zeros before the call. *)
Definition zeros (n : nat) : outputs Z :=
  {| pfreq := repeat 0 n; pamp := repeat 0 n |}.

End Inputs.


From Stdlib Require Import Ascii.

(** ** The command line of the driver: [parse_option] and the option loop
    of [main] *)

Module Options.

(** *** C strings

    A C string is modelled by its contents, the characters before the
    terminating NUL. *)

(** The first [n] characters: the string once a NUL is stored at offset
    [n]. *)
Fixpoint take (n : nat) (s : string) : string :=
  match n, s with
  | S n', String c s' => String c (take n' s')
  | _, _ => EmptyString
  end.

(** The string a pointer [n] characters further on points to. *)
Fixpoint drop (n : nat) (s : string) : string :=
  match n, s with
  | S n', String _ s' => drop n' s'
  | _, _ => s
  end.

(** [strncmp(a, b, n) == 0] *)
Fixpoint strncmp_eq (a b : string) (n : nat) {struct n} : bool :=
  match n with
  | O => true
  | S n' =>
      match a, b with
      | EmptyString, EmptyString => true
      | String x a', String y b' => Ascii.eqb x y && strncmp_eq a' b' n'
      | _, _ => false
      end
  end.

(** [index(s, c)] for a [c] that is not NUL: the offset of the first [c]
    in [s], [None] for the null pointer. *)
Fixpoint index (s : string) (c : ascii) : option nat :=
  match s with
  | EmptyString => None
  | String a s' =>
      if Ascii.eqb a c then Some O else option_map S (index s' c)
  end.

(** [toupper] in the C locale. *)
Definition toupper (c : ascii) : ascii :=
  let n := nat_of_ascii c in
  if ((97 <=? n) && (n <=? 122))%nat then ascii_of_nat (n - 32) else c.

(** [l] with its [n]-th element replaced; a list is not changed by a
    store past its end. *)
Fixpoint upd {A : Type} (l : list A) (n : nat) (x : A) : list A :=
  match l, n with
  | [], _ => []
  | _ :: t, O => x :: t
  | h :: t, S n' => h :: upd t n' x
  end.

(** *** [parse_option] *)

(** The value returned, [*name] and [*value] after the call ([None] is the
    null pointer), and the contents of the buffer [option] pointed to. *)
Record parsed : Type := {
  ret : Z;
  name : option string;
  value : option string;
  buffer : option string
}.

(** [name] and [value] are what [*name] and [*value] hold before the
    call. *)
Definition parse_option (option : option string)
    (name value : Datatypes.option string) : parsed :=
  match option with
  | None => {| ret := -1; name := name; value := value; buffer := None |}
  | Some s =>
      if negb (strncmp_eq s "--" 2)
      then {| ret := 0; name := None; value := None; buffer := Some s |}
      else
        let option := drop 2 s in
        match index option "="%char with
        | Some k =>
            {| ret := 2;
               name := Some (take k option);
               value := Some (drop (S k) option);
               buffer := Some (take (2 + k) s) |}
        | None =>
            {| ret := 1; name := Some option; value := value;
               buffer := Some s |}
        end
  end.

(** *** The option loop of [main] *)

Definition MHZ : Z := 1000000.
Definition KHZ : Z := 1000.

(** The variables the options set; [mode] is the array [char mode[16]],
    cell by cell. *)
Record settings : Type := {
  fstart : Z;
  fstop : Z;
  rbw : Z;
  peaks : Z;
  mode : list (cell ascii)
}.

(** [init options]: the defaults, with ["SH"] copied into the otherwise
    unwritten [mode]. *)
Definition defaults : settings :=
  {| fstart := 2000 * MHZ;
     fstop := 3000 * MHZ;
     rbw := 100 * KHZ;
     peaks := 1;
     mode := [Some "S"%char; Some "H"%char; Some Ascii.zero]
             ++ repeat None 13 |}.

(** [for(i=0;;i++) { if (!optvalue[i]) break; if (i >= 16) break;
    mode[i] = toupper(optvalue[i]); }], with [rest] the part of [optvalue]
    from offset [i] on: the final [i] and the array. *)
Fixpoint copy_mode (rest : string) (i : Z) (mode : list (cell ascii))
    : Z * list (cell ascii) :=
  match rest with
  | EmptyString => (i, mode)
  | String c rest' =>
      if 16 <=? i then (i, mode)
      else copy_mode rest' (i + 1) (upd mode (Z.to_nat i) (Some (toupper c)))
  end.

(** The loop above followed by [mode[15] = 0]. *)
Definition set_mode (optvalue : string) (mode : list (cell ascii))
    : Z * list (cell ascii) :=
  let '(i, mode) := copy_mode optvalue 0 mode in
  (i, upd mode 15 (Some Ascii.zero)).

(** The state of the loop: the index [i], the strings of [argv] (which
    [parse_option] cuts short), the two pointers it sets, and the
    settings. *)
Record loop_state : Type := {
  i : Z;
  argv : list string;
  optname : option string;
  optvalue : option string;
  vars : settings
}.

(** How [main] leaves the option parsing: by [return code], with the host
    and the settings, not yet, or by using a null pointer as a string. *)
Inductive parse_exit : Type :=
| Exit (code : Z)
| Parsed (host : string) (vars : settings)
| Running
| Undefined.

(** One turn of the loop: go on with the next turn, leave the loop, or
    leave [main]. *)
Inductive step : Type :=
| Next (st : loop_state)
| Leave (st : loop_state)
| Stop (e : parse_exit).

Section WithLibc.

(** [strtoull(s, NULL, 10)] and [strtoul(s, NULL, 10)]: the value returned
    and [errno] after the call, [errno] being 0 before it. *)
Variable strtoull : string -> Z * Z.
Variable strtoul : string -> Z * Z.

Definition with_vars (st : loop_state) (v : settings) : step :=
  Next {| i := i st + 1; argv := argv st; optname := optname st;
          optvalue := optvalue st; vars := v |}.

(** The body of the loop, from the test [i<argc] to [i++]. *)
Definition option_step (st : loop_state) : step :=
  match nth_error (argv st) (Z.to_nat (i st)) with
  | None => Leave st
  | Some arg =>
      let p := parse_option (Some arg) (optname st) (optvalue st) in
      let st :=
        {| i := i st;
           argv := match buffer p with
                   | Some b => upd (argv st) (Z.to_nat (i st)) b
                   | None => argv st
                   end;
           optname := name p; optvalue := value p; vars := vars st |} in
      let n := ret p in
      let v := vars st in
      if n =? 0 then Leave st
      else if n <? 0 then Stop (Exit (-1))
      else
        match optname st with
        | None => Stop Undefined
        | Some optname =>
            if (optname =? "help")%string then Stop (Exit 0)
            else if (optname =? "mode")%string then
              if negb (n =? 2) then Stop (Exit (-1))
              else
                match optvalue st with
                | None => Stop Undefined
                | Some optvalue =>
                    let '(i', m) := set_mode optvalue (mode v) in
                    Next {| i := i' + 1; argv := argv st;
                            optname := Options.optname st;
                            optvalue := Options.optvalue st;
                            vars := {| fstart := fstart v;
                                       fstop := fstop v; rbw := rbw v;
                                       peaks := peaks v; mode := m |} |}
                end
            else if (optname =? "start")%string then
              if negb (n =? 2) then Stop (Exit (-1))
              else
                match optvalue st with
                | None => Stop Undefined
                | Some optvalue =>
                    let '(x, errno) := strtoull optvalue in
                    if errno =? 0
                    then with_vars st
                           {| fstart := CInt.u64 x; fstop := fstop v;
                              rbw := rbw v; peaks := peaks v;
                              mode := mode v |}
                    else Stop (Exit (-1))
                end
            else if (optname =? "stop")%string then
              if negb (n =? 2) then Stop (Exit (-1))
              else
                match optvalue st with
                | None => Stop Undefined
                | Some optvalue =>
                    let '(x, errno) := strtoull optvalue in
                    if errno =? 0
                    then with_vars st
                           {| fstart := fstart v; fstop := CInt.u64 x;
                              rbw := rbw v; peaks := peaks v;
                              mode := mode v |}
                    else Stop (Exit (-1))
                end
            else if (optname =? "rbw")%string then
              if negb (n =? 2) then Stop (Exit (-1))
              else
                match optvalue st with
                | None => Stop Undefined
                | Some optvalue =>
                    let '(x, errno) := strtoul optvalue in
                    if errno =? 0
                    then with_vars st
                           {| fstart := fstart v; fstop := fstop v;
                              rbw := CInt.u64 x; peaks := peaks v;
                              mode := mode v |}
                    else Stop (Exit (-1))
                end
            else if (optname =? "peaks")%string then
              if negb (n =? 2) then Stop (Exit (-1))
              else
                match optvalue st with
                | None => Stop Undefined
                | Some optvalue =>
                    let '(x, errno) := strtoul optvalue in
                    if errno =? 0
                    then with_vars st
                           {| fstart := fstart v; fstop := fstop v;
                              rbw := rbw v; peaks := CInt.u32 x;
                              mode := mode v |}
                    else Stop (Exit (-1))
                end
            else Stop (Exit (-1))
        end
  end.

(** After the loop: there must be one more argument, the host. *)
Definition after_loop (st : loop_state) : parse_exit :=
  match nth_error (argv st) (Z.to_nat (i st)) with
  | None => Exit (-1)
  | Some host => Parsed host (vars st)
  end.

(** The loop, for at most [fuel] turns. *)
Fixpoint option_loop (fuel : nat) (st : loop_state) : parse_exit :=
  match fuel with
  | O => Running
  | S fuel' =>
      match option_step st with
      | Next st' => option_loop fuel' st'
      | Leave st' => after_loop st'
      | Stop e => e
      end
  end.

(** [main] up to [host = argv[i]]; [optname] and [optvalue] are not
    assigned before the first call of [parse_option]. *)
Definition parse_args (fuel : nat) (argv : list string) : parse_exit :=
  option_loop fuel
    {| i := 1; argv := argv; optname := None; optvalue := None;
       vars := defaults |}.

End WithLibc.

(** The argument the loop is at, if [i < argc]. *)
Definition current (st : loop_state) : option string :=
  nth_error (argv st) (Z.to_nat (i st)).

(** The state once [parse_option] has split the current argument into
    [nm] and [v]. *)
Definition cut (st : loop_state) (nm v : string) : loop_state :=
  {| i := i st;
     argv := upd (argv st) (Z.to_nat (i st)) ("--" ++ nm)%string;
     optname := Some nm; optvalue := Some v; vars := vars st |}.

(** The state at the next turn, with new settings. *)
Definition next_with (st : loop_state) (i' : Z) (v : settings)
    : loop_state :=
  {| i := i'; argv := argv st; optname := optname st;
     optvalue := optvalue st; vars := v |}.

Definition set_fstart (v : settings) (x : Z) : settings :=
  {| fstart := x; fstop := fstop v; rbw := rbw v; peaks := peaks v;
     mode := mode v |}.

Definition set_fstop (v : settings) (x : Z) : settings :=
  {| fstart := fstart v; fstop := x; rbw := rbw v; peaks := peaks v;
     mode := mode v |}.

Definition set_rbw (v : settings) (x : Z) : settings :=
  {| fstart := fstart v; fstop := fstop v; rbw := x; peaks := peaks v;
     mode := mode v |}.

Definition set_peaks (v : settings) (x : Z) : settings :=
  {| fstart := fstart v; fstop := fstop v; rbw := rbw v; peaks := x;
     mode := mode v |}.

Definition set_mode_cells (v : settings) (m : list (cell ascii))
    : settings :=
  {| fstart := fstart v; fstop := fstop v; rbw := rbw v; peaks := peaks v;
     mode := m |}.

(** An argument that [parse_option] splits into a name and a value. *)
Definition splits (arg : string) : bool :=
  strncmp_eq arg "--" 2
  && match index (drop 2 arg) "="%char with Some _ => true | None => false end.

(** The number of arguments of [argv] that can still be split. *)
Definition unsplit (argv : list string) : nat :=
  length (filter splits argv).

(** The C string an array of characters holds: the characters before the
    first NUL, [None] when an unwritten cell or the end of the array comes
    first. *)
Fixpoint c_string (l : list (cell ascii)) : option string :=
  match l with
  | [] => None
  | None :: _ => None
  | Some c :: l' =>
      if Ascii.eqb c Ascii.zero then Some EmptyString
      else option_map (String c) (c_string l')
  end.

(** A [strtoull] for running the model: it reads the leading decimal
    digits and leaves [errno] at 0. *)
Fixpoint decimal (s : string) (acc : Z) : Z :=
  match s with
  | EmptyString => acc
  | String c s' =>
      let d := Z.of_nat (nat_of_ascii c) - 48 in
      if (0 <=? d) && (d <=? 9) then decimal s' (10 * acc + d) else acc
  end.

Definition strto_decimal (s : string) : Z * Z := (decimal s 0, 0).

End Options.

(** ** [benchmark]: the time since a mark *)

Module Bench.

(** [struct timeval] *)
Record timeval : Type := {
  tv_sec : Z;
  tv_usec : Z
}.

(** The difference [benchmark] computes, in [time_t] seconds and
    [suseconds_t] microseconds; both types are signed, and a signed
    overflow is undefined. *)
Definition elapsed (since now : timeval) : Z * Z :=
  let diff_sec := tv_sec now - tv_sec since in
  if tv_usec since <=? tv_usec now
  then (diff_sec, tv_usec now - tv_usec since)
  else (diff_sec - 1, (tv_usec now + 1000000) - tv_usec since).

(** The two numbers [printf("%d.%06u", diff_sec, diff_usec)] shows, for
    the time [now] that [gettimeofday] gives: [%d] shows the 32 low bits of
    the seconds as an [int], [%06u] the 32 low bits of the microseconds as
    an [unsigned]. *)
Definition benchmark (since now : timeval) : Z * Z :=
  let '(diff_sec, diff_usec) := elapsed since now in
  (CInt.to_int diff_sec, CInt.u32 diff_usec).

(** A time in microseconds. *)
Definition micros (t : timeval) : Z := tv_sec t * 1000000 + tv_usec t.

End Bench.

(** ** The arguments [main] passes to [peakfind] *)

Module DriverArgs.

(** The third argument of the call
    [peakfind(pscfg->buf, pscfg->buflen, ((fstop - fstart) / rbw), peaks,
    pfreq, pamp)], which [peakfind] receives as [uint32_t hzperbin];
    [fstart], [fstop] and [rbw] are the [uint64_t] variables of [main]. *)
Definition hzperbin (fstart fstop rbw : Z) : Z :=
  CInt.u32 (CInt.u64 (fstop - fstart) / rbw).

End DriverArgs.

(** ** More concrete inputs *)

Module MoreInputs.
Import Sweep Options Bench.

(** A device that answers every read with a receiver context packet. *)
Definition dev_context_only : wsa_device :=
  {| capture_block_result := 0;
     read_reply := fun _ => (0, Inputs.receiver_header) |}.

(** The loop at the third option of a command line. *)
Definition at_mode_option : loop_state :=
  {| i := 3;
     argv := ["prog"; "--start=1"; "--stop=2"; "--mode=a"; "10.0.0.1"]%string;
     optname := Some "stop"%string; optvalue := Some "2"%string;
     vars := defaults |}.

(** The loop at the first argument, for a given argument. *)
Definition at_first (arg : string) : loop_state :=
  {| i := 1; argv := ["prog"%string; arg; "10.0.0.1"%string];
     optname := None; optvalue := None; vars := defaults |}.

(** A reader that fails on a packet of an unknown stream, with the error
    code -3, before the IF packet comes. *)
Definition dev_unknown_stream_fails : wsa_device :=
  {| capture_block_result := 0;
     read_reply := fun n =>
       match n with
       | O => (-3, Inputs.unknown_header)
       | _ => (0, Inputs.if_header)
       end |}.

(** Two times more than 2^31 seconds apart. *)
Definition epoch : timeval := {| tv_sec := 0; tv_usec := 0 |}.
Definition far : timeval := {| tv_sec := 2500000000; tv_usec := 0 |}.

Definition mark : timeval := {| tv_sec := 10; tv_usec := 900000 |}.
Definition later : timeval := {| tv_sec := 12; tv_usec := 100000 |}.

End MoreInputs.

(** * Properties *)

Module CIntFacts.
Import CInt.

Lemma wrap_small (bits x : Z) : 0 <= x < 2 ^ bits -> wrap bits x = x.
Proof. intros H. unfold wrap. now apply Z.mod_small. Qed.


End CIntFacts.

(** ** The peak finder *)

Module PeakFindFacts.
Import PeakFind.

Section WithAmp.

Variable amp : Type.
Implicit Types (buf : list (cell amp)) (o : outputs amp).

Lemma for_loop_keeps_state n :
      forall buf hzperbin peaks i (st : loop_state amp),
        for_loop amp n buf hzperbin peaks i st = st.
Proof.
      induction n as [|n IH]; intros; simpl.
      - reflexivity.
      - now rewrite IH.
Qed.

Lemma peakfind_eq buf buflen hzperbin peaks o :
      peakfind buf buflen hzperbin peaks o = (0, o).
Proof.
      unfold peakfind. now rewrite for_loop_keeps_state.
Qed.

Lemma print_results_zero fstart o : print_results fstart 0 o = Some [].
Proof.
      unfold print_results.
      assert (H1 : (0 <=? Z.of_nat (length (pamp o))) = true)
        by (apply Z.leb_le; lia).
      assert (H2 : (0 <=? Z.of_nat (length (pfreq o))) = true)
        by (apply Z.leb_le; lia).
      now rewrite H1, H2.
Qed.

(** C9: with [peaks = 0] the peak finder succeeds (it returns 0), it
    reports no peak: the driver's loop over the first [peaks] entries of
    the output arrays prints nothing. *)
Theorem peakfind_zero_peaks buf buflen hzperbin fstart o :
  fst (peakfind buf buflen hzperbin 0 o) = 0
  /\ print_results fstart 0 (snd (peakfind buf buflen hzperbin 0 o))
     = Some [].
Proof.
  rewrite peakfind_eq. simpl. split.
  - reflexivity.
  - apply print_results_zero.
Qed.

(** C10: [peakfind] returns 0 and leaves [pfreq] and [pamp] as they
    were, whatever it is given; the lines the driver prints after the
    call are those of the arrays as they were before it. *)
Theorem peakfind_writes_nothing buf buflen hzperbin peaks fstart n o :
  peakfind buf buflen hzperbin peaks o = (0, o)
  /\ print_results fstart n (snd (peakfind buf buflen hzperbin peaks o))
     = print_results fstart n o.
Proof.
  rewrite peakfind_eq. split; reflexivity.
Qed.

End WithAmp.

Import Inputs.

Lemma one_peak_local_max_count : Spec.local_max_count one_peak = 1%nat.
Proof. reflexivity. Qed.

Lemma zero_not_in_one_peak i : nth_error one_peak i <> Some 0.
Proof.
    destruct i as [|[|[|[|i]]]]; simpl; discriminate.
Qed.

(** C1: on the spectrum [-40; -20; -40] of a plan that starts at 2 GHz
    with 100 kHz bins, asked for two peaks, the peak finder writes
    nothing: the driver reports the two entries the arrays held before
    (0 dBm at the start frequency), neither of which is a bin of the
    spectrum, and more entries than the spectrum has local maxima. *)
Theorem peakfind_reports_unwritten_entries :
  let o := snd (peakfind (map Some one_peak) 3 100000 2 (zeros 256)) in
  print_results 2000000000 2 o
    = Some [(0, 2000000000); (0, 2000000000)]
  /\ ~ Spec.is_peak_of one_peak 2000000000 100000 (0, 2000000000)
  /\ (Spec.local_max_count one_peak < 2)%nat.
Proof.
  rewrite peakfind_eq. simpl. split; [reflexivity|]. split.
  - intros (i & _ & Hi & _). simpl in Hi.
    exact (zero_not_in_one_peak i Hi).
  - rewrite one_peak_local_max_count. lia.
Qed.

End PeakFindFacts.

(** ** The read loop and the capture *)

Module SweepFacts.
Import Sweep Inputs.

Section WithConstants.

Variable amp : Type.
Variable K : wsa_constants.
Variable dev : wsa_device.

Implicit Types (s : dev_state) (cfg : wsa_power_spectrum_config amp).

Lemma after_reads_0 s : after_reads s 0 = s.
Proof.
  destruct s as [l n]. unfold after_reads. simpl.
  now rewrite app_nil_r, Nat.add_0_r.
Qed.

Lemma after_reads_S s n :
  after_reads (after_reads s 1) n = after_reads s (S n).
Proof.
  unfold after_reads. simpl. rewrite <- app_assoc. simpl.
  f_equal. lia.
Qed.

Lemma read_step s :
  wsa_read_vrt_packet dev 1024 5000 s
  = (read_reply dev (reads_done s), after_reads s 1).
Proof.
  unfold wsa_read_vrt_packet, after_reads, read_op. simpl.
  now rewrite Nat.add_1_r.
Qed.

Lemma after_reads_S' s n :
  after_reads (after_reads s n) 1 = after_reads s (S n).
Proof.
  unfold after_reads. simpl. rewrite <- app_assoc.
  replace (repeat read_op n ++ [read_op]) with (repeat read_op (S n)).
  - f_equal. lia.
  - change [read_op] with (repeat read_op 1). rewrite <- repeat_app.
    f_equal. lia.
Qed.

(** One turn of the loop, by the reply it gets. *)
Lemma read_loop_S fuel s :
  read_loop K dev (S fuel) s
  = let r := read_reply dev (reads_done s) in
    if fst r <? 0 then (Loop_return (-1), after_reads s 1)
    else if packet_type (snd r) =? IF_PACKET_TYPE K
         then (Loop_break (snd r), after_reads s 1)
         else read_loop K dev fuel (after_reads s 1).
Proof.
  cbn [read_loop]. unfold bind. rewrite read_step.
  destruct (read_reply dev (reads_done s)) as [result header]. simpl.
  destruct (result <? 0); [reflexivity|].
  destruct (packet_type header =? IF_PACKET_TYPE K); reflexivity.
Qed.

Lemma read_loop_failed fuel s :
  failed (read_reply dev (reads_done s)) ->
  read_loop K dev (S fuel) s = (Loop_return (-1), after_reads s 1).
Proof.
  unfold failed. intros H. rewrite read_loop_S. cbv zeta.
  apply Z.ltb_lt in H. now rewrite H.
Qed.

Lemma read_loop_carries_if fuel s :
  carries_if K (read_reply dev (reads_done s)) ->
  read_loop K dev (S fuel) s
  = (Loop_break (snd (read_reply dev (reads_done s))), after_reads s 1).
Proof.
  unfold carries_if. intros [H1 H2]. rewrite read_loop_S. cbv zeta.
  apply Z.ltb_ge in H1. apply Z.eqb_eq in H2. now rewrite H1, H2.
Qed.

Lemma read_loop_skipped fuel s :
  skipped K (read_reply dev (reads_done s)) ->
  read_loop K dev (S fuel) s = read_loop K dev fuel (after_reads s 1).
Proof.
  unfold skipped. intros [H1 H2]. rewrite read_loop_S. cbv zeta.
  apply Z.ltb_ge in H1. apply Z.eqb_neq in H2. now rewrite H1, H2.
Qed.

(** The loop passes over any number of packets that are not IF packets. *)
Lemma read_loop_skips k :
  forall fuel s,
    (forall j, (j < k)%nat ->
               skipped K (read_reply dev (reads_done s + j))) ->
    read_loop K dev (k + fuel) s = read_loop K dev fuel (after_reads s k).
Proof.
  induction k as [|k IH]; intros fuel s Hskip.
  - now rewrite after_reads_0.
  - cbn [Nat.add]. rewrite read_loop_skipped.
    + rewrite IH.
      * now rewrite after_reads_S.
      * intros j Hj. cbn [after_reads reads_done].
        replace (reads_done s + 1 + j)%nat with (reads_done s + S j)%nat
          by lia.
        apply Hskip. lia.
    + specialize (Hskip 0%nat). rewrite Nat.add_0_r in Hskip.
      apply Hskip. lia.
Qed.

(** Whatever the device answers, the loop only reads packets, and at most
    [fuel] of them. *)
Lemma read_loop_only_reads fuel :
  forall s, exists n,
    (n <= fuel)%nat /\ snd (read_loop K dev fuel s) = after_reads s n.
Proof.
  induction fuel as [|fuel IH]; intros s.
  - exists 0%nat. split; [lia|]. simpl. now rewrite after_reads_0.
  - rewrite read_loop_S. cbv zeta.
    destruct (fst (read_reply dev (reads_done s)) <? 0).
    + exists 1%nat. split; [lia|reflexivity].
    + destruct (packet_type (snd (read_reply dev (reads_done s)))
                =? IF_PACKET_TYPE K).
      * exists 1%nat. split; [lia|reflexivity].
      * destruct (IH (after_reads s 1)) as (n & Hn & E).
        exists (S n). split; [lia|]. now rewrite E, after_reads_S.
Qed.

(** The function, with the calls before the loop done. *)
Lemma capture_unfold fuel cfg p s :
  wsa_capture_power_spectrum K dev fuel cfg p s
  = let p' := if p =? 0 then p else buf_addr cfg in
    let finish st h :=
      {| status := st; bufp := p'; cfg_after := cfg; header_after := h |} in
    if capture_block_result dev <? 0
    then (finish (Some (-1)) None, triggered K s)
    else
      (match fst (read_loop K dev fuel (triggered K s)) with
       | Loop_return r => finish (Some r) None
       | Loop_break header => finish (Some 0) (Some header)
       | Loop_running => finish None None
       end, snd (read_loop K dev fuel (triggered K s))).
Proof.
  unfold wsa_capture_power_spectrum, bind, wsa_flush_data,
    wsa_set_rfe_input_mode, wsa_set_samples_per_packet,
    wsa_set_packets_per_block, wsa_capture_block, call, ret.
  cbn [ops reads_done].
  repeat rewrite <- app_assoc. cbn [app].
  fold (setup_ops (WSA_RFE_SHN_STRING K)). fold (triggered K s).
  cbv zeta.
  destruct (capture_block_result dev <? 0); [reflexivity|].
  destruct (read_loop K dev fuel (triggered K s)) as [[r|h|] s']; reflexivity.
Qed.

(** Up to the trigger the calls are fixed; after it the function only
    reads packets, and none when the trigger is refused. *)
Lemma capture_state fuel cfg p s :
  exists n,
    (n <= fuel)%nat
    /\ (capture_block_result dev < 0 -> n = 0%nat)
    /\ snd (wsa_capture_power_spectrum K dev fuel cfg p s)
       = after_reads (triggered K s) n.
Proof.
  rewrite capture_unfold. cbv zeta.
  destruct (capture_block_result dev <? 0) eqn:E.
  - exists 0%nat. split; [lia|]. split; [reflexivity|].
    simpl. now rewrite after_reads_0.
  - apply Z.ltb_ge in E.
    destruct (read_loop_only_reads fuel (triggered K s)) as (n & Hn & En).
    exists n. split; [exact Hn|]. split; [lia|exact En].
Qed.

(** The config, and with it every cell of the buffer, is the same after
    the call as before it. *)
Lemma capture_keeps_cfg fuel cfg p s :
  cfg_after (fst (wsa_capture_power_spectrum K dev fuel cfg p s)) = cfg.
Proof.
  rewrite capture_unfold. cbv zeta.
  destruct (capture_block_result dev <? 0); [reflexivity|].
  simpl. destruct (fst (read_loop K dev fuel (triggered K s))); reflexivity.
Qed.

(** [*buf] is assigned before anything is asked of the device. *)
Lemma capture_bufp fuel cfg p s :
  bufp (fst (wsa_capture_power_spectrum K dev fuel cfg p s))
  = if p =? 0 then p else buf_addr cfg.
Proof.
  rewrite capture_unfold. cbv zeta.
  destruct (capture_block_result dev <? 0); [reflexivity|].
  simpl. destruct (fst (read_loop K dev fuel (triggered K s))); reflexivity.
Qed.

(** The mode set on the device is the constant of the library, whatever
    mode the config was allocated for. *)
Lemma capture_sets_shn fuel cfg p s :
  In (Op_set_rfe_input_mode (WSA_RFE_SHN_STRING K))
     (ops (snd (wsa_capture_power_spectrum K dev fuel cfg p s))).
Proof.
  destruct (capture_state fuel cfg p s) as (n & _ & _ & E). rewrite E.
  cbn [after_reads triggered ops]. rewrite !in_app_iff. left. right.
  simpl. auto.
Qed.

Lemma capture_triggers fuel cfg p s :
  In Op_capture_block
     (ops (snd (wsa_capture_power_spectrum K dev fuel cfg p s))).
Proof.
  destruct (capture_state fuel cfg p s) as (n & _ & _ & E). rewrite E.
  cbn [after_reads triggered ops]. rewrite !in_app_iff. left. right.
  simpl. auto 10.
Qed.

Lemma captures_app l l' : captures (l ++ l') = (captures l + captures l')%nat.
Proof. unfold captures. now rewrite filter_app, length_app. Qed.

Lemma captures_reads n : captures (repeat read_op n) = 0%nat.
Proof. induction n as [|n IH]; [reflexivity|exact IH]. Qed.

Lemma step_count_one (b : Z) :
  Spec.step_count b (Spec.bins_per_capture 1024) = 1 <-> 1 <= b <= 512.
Proof.
  unfold Spec.step_count, Spec.bins_per_capture.
  change (1024 / 2) with 512. split; intros H.
  - pose proof (Z.div_mod (b + 512 - 1) 512 ltac:(lia)) as D.
    pose proof (Z.mod_pos_bound (b + 512 - 1) 512 ltac:(lia)) as B.
    rewrite H in D. lia.
  - symmetry. apply Z.div_unique with (r := b - 1); lia.
Qed.

(** *** The allocation *)

Lemma alloc_succeeds heap fstart fstop rbw mode :
  rbw <> 0 ->
  malloc_cfg heap <> 0 ->
  let n := CInt.wrap (buflen_bits K) (CInt.u64 (fstop - fstart) / rbw) in
  malloc_buf heap (sizeof_float * n) <> 0 ->
  wsa_power_spectrum_alloc amp K heap fstart fstop rbw mode
  = Alloc_return 0
      (Pscfg {| fstart := fstart; fstop := fstop; rbw := rbw; buflen := n;
                buf_addr := malloc_buf heap (sizeof_float * n);
                buf := repeat None (Z.to_nat n) |}).
Proof.
  intros Hr Hc n Hb. unfold wsa_power_spectrum_alloc.
  apply Z.eqb_neq in Hr, Hc, Hb. fold n. now rewrite Hc, Hr, Hb.
Qed.

Lemma alloc_config heap fstart fstop rbw mode r cfg :
  wsa_power_spectrum_alloc amp K heap fstart fstop rbw mode
  = Alloc_return r (Pscfg cfg) ->
  r = 0 /\ buf cfg = repeat None (Z.to_nat (buflen cfg)).
Proof.
  unfold wsa_power_spectrum_alloc.
  destruct (malloc_cfg heap =? 0); [discriminate|].
  destruct (rbw =? 0); [discriminate|].
  destruct (malloc_buf heap _ =? 0); [discriminate|].
  intros H. injection H as <- <-. split; reflexivity.
Qed.

(** *** The claims about the sweep *)

(** C2: a buffer that [wsa_power_spectrum_alloc] has just allocated still
    has every one of its [buflen] bins unwritten when the capture returns 0:
    the sweep call reports success without storing a single power value. *)
Theorem capture_leaves_buffer_unwritten
    heap fstart fstop rbw mode r cfg fuel p s :
  wsa_power_spectrum_alloc amp K heap fstart fstop rbw mode
  = Alloc_return r (Pscfg cfg) ->
  status (fst (wsa_capture_power_spectrum K dev fuel cfg p s)) = Some 0 ->
  buf (cfg_after (fst (wsa_capture_power_spectrum K dev fuel cfg p s)))
  = repeat None (Z.to_nat (buflen cfg)).
Proof.
  intros Ha _. rewrite capture_keeps_cfg.
  now destruct (alloc_config _ _ _ _ _ _ _ Ha).
Qed.

(** C3: one sweep call triggers exactly one capture, whatever the plan and
    whatever the device answers, and that capture is set to 1024 samples per
    packet: the calls on the device are the flush, the mode, 1024 samples
    per packet, 1 packet per block, the one trigger, and then reads only.
    Counted from a fresh device, the one capture is the
    ceil(bin_count / bins_per_capture) of the specification, with
    bins_per_capture half of those 1024 samples, exactly when the buffer has
    between 1 and 512 bins. *)
Theorem capture_triggers_once fuel cfg p s :
  captures (ops (snd (wsa_capture_power_spectrum K dev fuel cfg p s)))
  = S (captures (ops s))
  /\ (exists mode n,
        ops (snd (wsa_capture_power_spectrum K dev fuel cfg p s))
        = ops s
          ++ [Op_flush_data; Op_set_rfe_input_mode mode;
              Op_set_samples_per_packet 1024; Op_set_packets_per_block 1;
              Op_capture_block]
          ++ repeat (Op_read_vrt_packet 1024 5000) n)
  /\ Spec.bins_per_capture 1024 = 512
  /\ (Z.of_nat
        (captures
           (ops (snd (wsa_capture_power_spectrum K dev fuel cfg p dev_init))))
      = Spec.step_count (buflen cfg) (Spec.bins_per_capture 1024)
      <-> 1 <= buflen cfg <= 512).
Proof.
  assert (H : forall s0,
             captures
               (ops (snd (wsa_capture_power_spectrum K dev fuel cfg p s0)))
             = S (captures (ops s0))).
  { intros s0. destruct (capture_state fuel cfg p s0) as (n & _ & _ & E).
    rewrite E. cbn [after_reads triggered ops].
    rewrite !captures_app, captures_reads. cbn. lia. }
  split; [apply H|]. split.
  { destruct (capture_state fuel cfg p s) as (n & _ & _ & E).
    exists (WSA_RFE_SHN_STRING K), n. rewrite E.
    cbn [after_reads triggered ops]. now rewrite <- app_assoc. }
  split; [reflexivity|].
  rewrite H. change (Z.of_nat (S (captures (ops dev_init)))) with 1.
  rewrite <- step_count_one.
  split; intros E; now rewrite E.
Qed.

(** For a plan with fstop > fstart and rbw > 0 whose bin count
    floor((fstop - fstart) / rbw) fits the [buflen] field, and when both
    allocations succeed, the config records the plan as given, [buflen] is
    that bin count, and the buffer is what [malloc] returned for that many
    floats and has that many bins. *)
Lemma alloc_buflen_when_it_fits heap fstart fstop rbw mode :
  CInt.is_u64 fstart -> CInt.is_u64 fstop ->
  fstart < fstop -> 0 < rbw ->
  Spec.bin_count fstart fstop rbw < 2 ^ buflen_bits K ->
  malloc_cfg heap <> 0 ->
  malloc_buf heap (sizeof_float * Spec.bin_count fstart fstop rbw) <> 0 ->
  exists cfg,
    wsa_power_spectrum_alloc amp K heap fstart fstop rbw mode
    = Alloc_return 0 (Pscfg cfg)
    /\ buflen cfg = Spec.bin_count fstart fstop rbw
    /\ length (buf cfg) = Z.to_nat (Spec.bin_count fstart fstop rbw)
    /\ Sweep.fstart cfg = fstart /\ Sweep.rbw cfg = rbw
    /\ Sweep.fstop cfg = fstop
    /\ buf_addr cfg
       = malloc_buf heap (sizeof_float * Spec.bin_count fstart fstop rbw).
Proof.
  unfold CInt.is_u64, Spec.bin_count. intros H1 H2 Hlt Hr Hfit Hc Hb.
  assert (E : CInt.wrap (buflen_bits K) (CInt.u64 (fstop - fstart) / rbw)
              = (fstop - fstart) / rbw).
  { unfold CInt.u64. rewrite (CIntFacts.wrap_small 64) by lia.
    apply CIntFacts.wrap_small. split; [|exact Hfit].
    apply Z.div_pos; lia. }
  eexists. split.
  - apply alloc_succeeds; [lia|exact Hc|]. cbv zeta. now rewrite E.
  - cbn [buflen buf buf_addr Sweep.fstart Sweep.rbw Sweep.fstop].
    rewrite E, repeat_length.
    repeat split; reflexivity.
Qed.

(** C5: the allocation does not look at the plan.  Whenever rbw is not 0 it
    returns 0 or -1, and -1 only when one of its two allocations fails; when
    it returns 0 there is a config, and the capture run on that config makes
    the same calls as for any plan: it flushes, sets the mode, 1024 samples
    per packet and 1 packet per block, triggers the capture and then reads
    packets. *)
Theorem alloc_does_not_validate heap fstart fstop rbw mode :
  rbw <> 0 ->
  exists r pscfg,
    wsa_power_spectrum_alloc amp K heap fstart fstop rbw mode
    = Alloc_return r pscfg
    /\ (r = 0 \/ r = -1)
    /\ (r = -1 <->
        malloc_cfg heap = 0
        \/ malloc_buf heap
             (sizeof_float
              * CInt.wrap (buflen_bits K) (CInt.u64 (fstop - fstart) / rbw))
           = 0)
    /\ (r = 0 ->
        exists cfg,
          pscfg = Pscfg cfg
          /\ forall fuel p s,
               exists n,
                 ops (snd (wsa_capture_power_spectrum K dev fuel cfg p s))
                 = ops s
                   ++ [Op_flush_data;
                       Op_set_rfe_input_mode (WSA_RFE_SHN_STRING K);
                       Op_set_samples_per_packet 1024;
                       Op_set_packets_per_block 1; Op_capture_block]
                   ++ repeat (Op_read_vrt_packet 1024 5000) n).
Proof.
  intros Hr. unfold wsa_power_spectrum_alloc.
  apply Z.eqb_neq in Hr. rewrite Hr.
  destruct (malloc_cfg heap =? 0) eqn:Ec.
  - apply Z.eqb_eq in Ec. do 2 eexists. split; [reflexivity|].
    split; [now right|]. split; [tauto|discriminate].
  - apply Z.eqb_neq in Ec. cbv zeta.
    destruct (malloc_buf heap _ =? 0) eqn:Eb.
    + apply Z.eqb_eq in Eb. do 2 eexists. split; [reflexivity|].
      split; [now right|]. split; [tauto|discriminate].
    + apply Z.eqb_neq in Eb. do 2 eexists. split; [reflexivity|].
      split; [now left|]. split.
      * split; [discriminate|]. intros [H|H]; contradiction.
      * intros _. eexists. split; [reflexivity|].
        intros fuel p s.
        match goal with
        | |- context [wsa_capture_power_spectrum K dev fuel ?c p s] =>
            destruct (capture_state fuel c p s) as (n & _ & _ & E)
        end.
        exists n. rewrite E. cbn [after_reads triggered ops].
        now rewrite <- app_assoc.
Qed.

(** C6: when a capture step fails -- the trigger is refused, or a read
    fails before any IF packet has come -- the sweep call returns -1
    whatever the error of the step was, it hands out no header, and it
    leaves the config and every bin of its buffer as they were; [*buf] is as
    it was set before the capture began. *)
Theorem capture_step_failure k fuel cfg p s :
  capture_block_result dev < 0
  \/ ((forall j, (j < k)%nat ->
                 skipped K (read_reply dev (reads_done s + j)))
      /\ failed (read_reply dev (reads_done s + k))
      /\ (k < fuel)%nat) ->
  let c := fst (wsa_capture_power_spectrum K dev fuel cfg p s) in
  status c = Some (-1)
  /\ header_after c = None
  /\ cfg_after c = cfg
  /\ bufp c = (if p =? 0 then p else buf_addr cfg).
Proof.
  intros H c. subst c.
  split; [|split; [|split; [apply capture_keeps_cfg|apply capture_bufp]]];
    rewrite capture_unfold; cbv zeta;
    destruct (capture_block_result dev <? 0) eqn:E; try reflexivity;
    apply Z.ltb_ge in E;
    (destruct H as [H|(Hs & Hf & Hk)]; [lia|]);
    replace fuel with (k + S (fuel - S k))%nat by lia;
    rewrite read_loop_skips by exact Hs;
    rewrite read_loop_failed by exact Hf; reflexivity.
Qed.

(** C7: the loop decides on the result of the read first and on the packet
    type second, and never on the stream id.  After an accepted trigger and
    any number of packets read with a result that is not negative and a type
    that is not IF -- context packets, packets of a stream that is not
    recognised -- the loop is still reading.  If the next read brings an IF
    packet, the call returns 0, having stopped on the header of that packet
    after one read per packet.  If the next read returns a negative result,
    whatever packet it was about, the call returns -1 and that read is the
    last: a packet that comes after it is not read. *)
Theorem capture_skips_non_if_packets k fuel cfg p s :
  0 <= capture_block_result dev ->
  (forall j, (j < k)%nat ->
             skipped K (read_reply dev (reads_done s + j))) ->
  (k < fuel)%nat ->
  let r := wsa_capture_power_spectrum K dev fuel cfg p s in
  (carries_if K (read_reply dev (reads_done s + k)) ->
   status (fst r) = Some 0
   /\ header_after (fst r) = Some (snd (read_reply dev (reads_done s + k)))
   /\ snd r = after_reads (triggered K s) (S k))
  /\ (failed (read_reply dev (reads_done s + k)) ->
      status (fst r) = Some (-1)
      /\ header_after (fst r) = None
      /\ snd r = after_reads (triggered K s) (S k)).
Proof.
  intros Hc Hs Hk r. subst r.
  rewrite capture_unfold. cbv zeta.
  apply Z.ltb_ge in Hc. rewrite Hc.
  replace fuel with (k + S (fuel - S k))%nat by lia.
  rewrite read_loop_skips by exact Hs.
  split; intros Hi.
  - rewrite read_loop_carries_if by exact Hi.
    cbn [fst snd status header_after after_reads triggered reads_done].
    rewrite after_reads_S'.
    repeat split; reflexivity.
  - rewrite read_loop_failed by exact Hi.
    cbn [fst snd status header_after after_reads triggered reads_done].
    rewrite after_reads_S'.
    repeat split; reflexivity.
Qed.


End WithConstants.

(** *** Runs on concrete plans and devices *)

Lemma alloc_default_plan :
  wsa_power_spectrum_alloc Z wsa_lib heap_ok fstart0 fstop0 rbw0 "SH"
  = Alloc_return 0 (Pscfg (cfg0 10000)).
Proof. vm_compute. reflexivity. Qed.

(* C2 on the default plan, with a device that sends the IF packet first. *)
Lemma capture_leaves_buffer_unwritten_witness :
  status (fst (wsa_capture_power_spectrum wsa_lib dev_if_first 1
                 (cfg0 10000) 0 dev_init)) = Some 0
  /\ buf (cfg_after (fst (wsa_capture_power_spectrum wsa_lib dev_if_first 1
                            (cfg0 10000) 0 dev_init)))
     = repeat None (Z.to_nat (buflen (cfg0 10000))).
Proof.
  split; [reflexivity|].
  apply (capture_leaves_buffer_unwritten Z wsa_lib dev_if_first heap_ok
           fstart0 fstop0 rbw0 "SH" 0 (cfg0 10000) 1%nat 0 dev_init).
  - exact alloc_default_plan.
  - reflexivity.
Defined.

(* C3 as stated fails on the default plan: 10000 bins are 20 steps of 512
   bins, and one capture is triggered. *)
Lemma default_plan_one_capture_for_twenty_steps :
  wsa_power_spectrum_alloc Z wsa_lib heap_ok fstart0 fstop0 rbw0 "SH"
  = Alloc_return 0 (Pscfg (cfg0 10000))
  /\ Spec.step_count (buflen (cfg0 10000)) (Spec.bins_per_capture 1024) = 20
  /\ captures (ops (snd (wsa_capture_power_spectrum wsa_lib dev_if_first 1
                           (cfg0 10000) 0 dev_init))) = 1%nat
  /\ Z.of_nat
       (captures (ops (snd (wsa_capture_power_spectrum wsa_lib dev_if_first 1
                              (cfg0 10000) 0 dev_init))))
     <> Spec.step_count (buflen (cfg0 10000)) (Spec.bins_per_capture 1024).
Proof.
  split; [exact alloc_default_plan|].
  split; [reflexivity|]. split; [reflexivity|]. discriminate.
Qed.

(* With a [buflen] of 32 bits the bin count of 0 Hz to 4294967296 Hz in
   bins of 1 Hz does not fit. *)
Lemma alloc_buflen_wraps :
  0 < 4294967296 /\ 0 < 1
  /\ Spec.bin_count 0 4294967296 1 = 4294967296
  /\ exists cfg,
       wsa_power_spectrum_alloc Z wsa_lib heap_ok 0 4294967296 1 "SH"
       = Alloc_return 0 (Pscfg cfg)
       /\ buflen cfg = 0
       /\ length (buf cfg) = 0%nat
       /\ buflen cfg <> Spec.bin_count 0 4294967296 1.
Proof.
  split; [lia|]. split; [lia|]. split; [reflexivity|].
  eexists. split; [reflexivity|]. split; [reflexivity|].
  split; [reflexivity|]. discriminate.
Qed.

(* The default plan fits. *)
Lemma alloc_buflen_when_it_fits_witness :
  fstart0 < fstop0 /\ 0 < rbw0
  /\ exists cfg,
       wsa_power_spectrum_alloc Z wsa_lib heap_ok fstart0 fstop0 rbw0 "SH"
       = Alloc_return 0 (Pscfg cfg)
       /\ buflen cfg = 10000
       /\ Z.of_nat (length (buf cfg)) = 10000.
Proof.
  split; [reflexivity|]. split; [reflexivity|].
  destruct (alloc_buflen_when_it_fits Z wsa_lib heap_ok
              fstart0 fstop0 rbw0 "SH") as (cfg & Ha & Hl & Hb & _).
  - unfold CInt.is_u64, fstart0. lia.
  - unfold CInt.is_u64, fstop0. lia.
  - reflexivity.
  - reflexivity.
  - reflexivity.
  - discriminate.
  - discriminate.
  - exists cfg. split; [exact Ha|]. split; [exact Hl|].
    rewrite Hb. reflexivity.
Defined.

(* C5 as stated fails on a plan that stops below its start: the allocation
   returns 0, with a buffer of the wrapped-around size, and the capture
   goes on to trigger the device. *)
Lemma reversed_plan_is_accepted :
  Spec.invalid_plan 3000000000 2000000000 100000
  /\ exists cfg,
       wsa_power_spectrum_alloc Z wsa_lib heap_ok
         3000000000 2000000000 100000 "SH"
       = Alloc_return 0 (Pscfg cfg)
       /\ buflen cfg = 2890331191
       /\ In Op_capture_block
            (ops (snd (wsa_capture_power_spectrum wsa_lib dev_if_first 1
                         cfg 0 dev_init))).
Proof.
  split.
  - left. lia.
  - eexists. split.
    + apply alloc_succeeds; discriminate.
    + split; [reflexivity|]. apply capture_triggers.
Qed.

(* C5 on the same plan. *)
Lemma alloc_does_not_validate_witness :
  100000 <> 0
  /\ exists r pscfg,
       wsa_power_spectrum_alloc Z wsa_lib heap_ok
         3000000000 2000000000 100000 "SH"
       = Alloc_return r pscfg
       /\ (r = 0 \/ r = -1).
Proof.
  split; [discriminate|].
  destruct (alloc_does_not_validate Z wsa_lib dev_if_first heap_ok
              3000000000 2000000000 100000 "SH") as (r & q & Ha & Hr & _).
  - discriminate.
  - exists r, q. split; [exact Ha|exact Hr].
Defined.

(* C6 as stated fails when a read fails with the code -2: the call returns
   -1, and the caller's pointer already holds the address of the buffer. *)
Lemma read_error_code_is_not_returned :
  fst (read_reply dev_read_fails 0) = -2
  /\ status (fst (wsa_capture_power_spectrum wsa_lib dev_read_fails 1
                    (cfg0 3) 0x7ffe dev_init)) = Some (-1)
  /\ status (fst (wsa_capture_power_spectrum wsa_lib dev_read_fails 1
                    (cfg0 3) 0x7ffe dev_init)) <> Some (-2)
  /\ bufp (fst (wsa_capture_power_spectrum wsa_lib dev_read_fails 1
                  (cfg0 3) 0x7ffe dev_init)) = buf_addr (cfg0 3).
Proof.
  split; [reflexivity|]. split; [reflexivity|].
  split; [discriminate|reflexivity].
Qed.

(* C6 on that device. *)
Lemma capture_step_failure_witness :
  failed (read_reply dev_read_fails 0)
  /\ status (fst (wsa_capture_power_spectrum wsa_lib dev_read_fails 1
                    (cfg0 3) 0 dev_init)) = Some (-1)
  /\ cfg_after (fst (wsa_capture_power_spectrum wsa_lib dev_read_fails 1
                       (cfg0 3) 0 dev_init)) = cfg0 3.
Proof.
  assert (F : failed (read_reply dev_read_fails 0)) by (unfold failed; simpl; lia).
  split; [exact F|].
  destruct (capture_step_failure Z wsa_lib dev_read_fails 0 1 (cfg0 3) 0
              dev_init) as (H1 & _ & H3 & _).
  - right. split; [intros j Hj; lia|]. split; [exact F|lia].
  - split; [exact H1|exact H3].
Defined.

(* C7 as stated fails when the reader reports the packet of the unknown
   stream by a negative result: the call returns -1 after that one read, and
   the IF packet that follows is never read. *)
Lemma unknown_stream_error_aborts :
  dump_stream_label wsa_lib
    (snd (read_reply MoreInputs.dev_unknown_stream_fails 0))
  = UNKNOWN_STREAM 0xdeadbeef
  /\ fst (read_reply MoreInputs.dev_unknown_stream_fails 0) = -3
  /\ carries_if wsa_lib (read_reply MoreInputs.dev_unknown_stream_fails 1)
  /\ status (fst (wsa_capture_power_spectrum wsa_lib
                    MoreInputs.dev_unknown_stream_fails 3 (cfg0 3) 0
                    dev_init)) = Some (-1)
  /\ reads_done (snd (wsa_capture_power_spectrum wsa_lib
                        MoreInputs.dev_unknown_stream_fails 3 (cfg0 3) 0
                        dev_init)) = 1%nat.
Proof.
  split; [reflexivity|]. split; [reflexivity|].
  split; [split; [simpl; lia|reflexivity]|].
  split; reflexivity.
Qed.

(* C7 on a device that sends a receiver context packet, then a packet of an
   unknown stream, then the IF packet. *)
Lemma capture_skips_non_if_packets_witness :
  dump_stream_label wsa_lib receiver_header = CTX_RECEIVER
  /\ dump_stream_label wsa_lib unknown_header = UNKNOWN_STREAM 0xdeadbeef
  /\ status (fst (wsa_capture_power_spectrum wsa_lib dev_context_first 3
                    (cfg0 3) 0 dev_init)) = Some 0
  /\ header_after (fst (wsa_capture_power_spectrum wsa_lib dev_context_first
                          3 (cfg0 3) 0 dev_init)) = Some if_header
  /\ reads_done (snd (wsa_capture_power_spectrum wsa_lib dev_context_first
                        3 (cfg0 3) 0 dev_init)) = 3%nat.
Proof.
  split; [reflexivity|]. split; [reflexivity|].
  destruct (capture_skips_non_if_packets Z wsa_lib dev_context_first 2 3
              (cfg0 3) 0 dev_init) as [H _].
  - simpl. lia.
  - intros j Hj. unfold skipped.
    destruct j as [|[|j]]; [| |lia]; simpl; split; (lia || discriminate).
  - lia.
  - destruct H as (H1 & H2 & H3).
    + unfold carries_if. simpl. split; [lia|reflexivity].
    + split; [exact H1|]. split; [exact H2|]. now rewrite H3.
Defined.


End SweepFacts.

(** ** The driver *)

Module DriverFacts.
Import Sweep PeakFind Driver Inputs.

(** Whatever [main] prints as the peaks found is what [pfreq] and [pamp]
    held before the sweep began. *)
Lemma main_prints_what_the_arrays_held
    (amp : Type) (K : wsa_constants) dev heap fuel fstart fstop rbw peaks
    mode psbuf (o : outputs amp) s lines :
  fst (main_sweep K dev heap fuel fstart fstop rbw peaks mode psbuf o s)
  = Main_printed lines ->
  print_results fstart peaks o = Some lines.
Proof.
  unfold main_sweep.
  destruct (wsa_power_spectrum_alloc amp K heap fstart fstop
              (CInt.u32 rbw) mode) as [r [| |cfg]|]; try discriminate.
  unfold bind.
  destruct (wsa_capture_power_spectrum K dev fuel cfg psbuf s) as [c s'].
  destruct (status c); [|discriminate].
  destruct (rbw =? 0); [discriminate|].
  rewrite PeakFindFacts.peakfind_eq.
  destruct (print_results fstart peaks o); [|discriminate].
  simpl. intros H. now injection H as <-.
Qed.

(** The default run of the driver against a device that answers with an IF
    packet at once: one line, 0 dBm at the start frequency. *)
Lemma main_default_run :
  fst (main_sweep wsa_lib dev_if_first heap_ok 1 fstart0 fstop0 rbw0 1 "SH"
         0 (zeros 256) dev_init)
  = Main_printed [(0, 2000000000)].
Proof. vm_compute. reflexivity. Qed.

(** The value [main] passes for [hzperbin] is the bin count, not the width
    of a bin: 10000 on the default plan, where a bin is 100000 Hz wide. *)
Lemma main_hzperbin_default_plan :
  CInt.u32 (CInt.u64 (fstop0 - fstart0) / rbw0) = 10000 /\ rbw0 = 100000.
Proof. split; reflexivity. Qed.


End DriverFacts.

(** ** The command line *)

Module OptionsFacts.
Import Options.

(** *** Strings *)

Lemma take_drop n : forall s, (take n s ++ drop n s)%string = s.
Proof.
  induction n as [|n IH]; intros [|c s]; simpl; try reflexivity.
  now rewrite IH.
Qed.

Lemma take_app a b : take (String.length a) (a ++ b) = a.
Proof. induction a as [|c a IH]; simpl; [now destruct b|now rewrite IH]. Qed.

Lemma drop_app a b : drop (String.length a) (a ++ b) = b.
Proof. induction a as [|c a IH]; simpl; [now destruct b|exact IH]. Qed.

Lemma take_length n : forall s, (String.length (take n s) <= n)%nat.
Proof.
  induction n as [|n IH]; intros [|c s]; simpl; try lia.
  specialize (IH s). lia.
Qed.

Lemma index_app a c b :
  index a c = None ->
  index (a ++ String c b) c = Some (String.length a).
Proof.
  induction a as [|x a IH]; simpl; intros H.
  - now rewrite Ascii.eqb_refl.
  - destruct (Ascii.eqb x c); [discriminate|].
    destruct (index a c); [discriminate|]. now rewrite IH.
Qed.

Lemma index_split c : forall s k,
  index s c = Some k ->
  s = (take k s ++ String c (drop (S k) s))%string
  /\ index (take k s) c = None
  /\ String.length (take k s) = k.
Proof.
  induction s as [|x s IH]; simpl; intros k H; [discriminate|].
  destruct (Ascii.eqb x c) eqn:E.
  - injection H as <-. apply Ascii.eqb_eq in E. subst x.
    simpl. now destruct s.
  - destruct (index s c) as [k'|] eqn:E'; [|discriminate].
    injection H as <-. destruct (IH k' eq_refl) as (H1 & H2 & H3).
    simpl. rewrite E, H2, H3. repeat split. f_equal.
    destruct s; [discriminate|exact H1].
Qed.

Lemma dashes_iff s :
  strncmp_eq s "--" 2 = true <-> exists r, s = ("--" ++ r)%string.
Proof.
  split.
  - destruct s as [|x [|y r]]; simpl; try discriminate.
    + now rewrite andb_false_r.
    + intros H. apply andb_prop in H as [H1 H2].
      apply andb_prop in H2 as [H2 _].
      apply Ascii.eqb_eq in H1, H2. subst. now exists r.
  - intros [r ->]. reflexivity.
Qed.

(** *** [parse_option] *)

Lemma drop_S_app a c b :
  drop (S (String.length a)) (a ++ String c b) = b.
Proof. induction a as [|x a IH]; simpl; [reflexivity|exact IH]. Qed.

(** An argument that starts with two dashes. *)
Lemma parse_dashes r n0 v0 :
  parse_option (Some ("--" ++ r)%string) n0 v0
  = match index r "="%char with
    | Some k =>
        {| ret := 2; name := Some (take k r); value := Some (drop (S k) r);
           buffer := Some ("--" ++ take k r)%string |}
    | None =>
        {| ret := 1; name := Some r; value := v0;
           buffer := Some ("--" ++ r)%string |}
    end.
Proof. reflexivity. Qed.

Lemma parse_no_dashes s n0 v0 :
  strncmp_eq s "--" 2 = false ->
  parse_option (Some s) n0 v0
  = {| ret := 0; name := None; value := None; buffer := Some s |}.
Proof. intros H. unfold parse_option. now rewrite H. Qed.

Lemma parse_split nm v n0 v0 :
  index nm "="%char = None ->
  parse_option (Some ("--" ++ nm ++ "=" ++ v)%string) n0 v0
  = {| ret := 2; name := Some nm; value := Some v;
       buffer := Some ("--" ++ nm)%string |}.
Proof.
  intros H. rewrite parse_dashes.
  change (nm ++ "=" ++ v)%string with (nm ++ String "=" v)%string.
  rewrite (index_app nm "=" v H).
  now rewrite take_app, drop_S_app.
Qed.

Lemma parse_bare nm n0 v0 :
  index nm "="%char = None ->
  parse_option (Some ("--" ++ nm)%string) n0 v0
  = {| ret := 1; name := Some nm; value := v0;
       buffer := Some ("--" ++ nm)%string |}.
Proof. intros H. rewrite parse_dashes. now rewrite H. Qed.

(** X1: an argument [--name=value] whose name has no [=] is split at its
    first [=]: [parse_option] returns 2 with the name and the value, and
    leaves [--name] in the buffer of the argument. *)
Theorem parse_option_splits_at_first_equals nm v n0 v0 :
  index nm "="%char = None ->
  let p := parse_option (Some ("--" ++ nm ++ "=" ++ v)%string) n0 v0 in
  ret p = 2 /\ name p = Some nm /\ value p = Some v
  /\ buffer p = Some ("--" ++ nm)%string.
Proof.
  intros H p. subst p. rewrite (parse_split nm v n0 v0 H).
  repeat split; reflexivity.
Qed.

(** X2: whenever [parse_option] returns 2, the argument was
    [--name=value] for the name and the value it hands out, the name has no
    [=] in it, and the argument is cut down to [--name]. *)
Theorem parse_option_two_inverts s n0 v0 :
  ret (parse_option (Some s) n0 v0) = 2 ->
  exists nm v,
    s = ("--" ++ nm ++ "=" ++ v)%string
    /\ index nm "="%char = None
    /\ name (parse_option (Some s) n0 v0) = Some nm
    /\ value (parse_option (Some s) n0 v0) = Some v
    /\ buffer (parse_option (Some s) n0 v0) = Some ("--" ++ nm)%string.
Proof.
  destruct (strncmp_eq s "--" 2) eqn:E.
  - apply dashes_iff in E as [r ->]. rewrite parse_dashes.
    destruct (index r "="%char) as [k|] eqn:Ek; [|discriminate].
    intros _. destruct (index_split _ _ _ Ek) as (H1 & H2 & _).
    exists (take k r), (drop (S k) r). cbn [name value buffer].
    repeat split; try assumption.
    change (take k r ++ "=" ++ drop (S k) r)%string
      with (take k r ++ String "=" (drop (S k) r))%string.
    now rewrite <- H1.
  - rewrite (parse_no_dashes s n0 v0 E). discriminate.
Qed.

(** X3: [parse_option] returns 0 exactly for the arguments that do not
    start with two dashes; it then sets both pointers to null and leaves the
    argument alone. *)
Theorem parse_option_zero_iff s n0 v0 :
  (ret (parse_option (Some s) n0 v0) = 0
   <-> ~ exists r, s = ("--" ++ r)%string)
  /\ (ret (parse_option (Some s) n0 v0) = 0 ->
      parse_option (Some s) n0 v0
      = {| ret := 0; name := None; value := None; buffer := Some s |}).
Proof.
  destruct (strncmp_eq s "--" 2) eqn:E.
  - pose proof E as E'. apply dashes_iff in E' as [r ->].
    rewrite parse_dashes. split.
    + split.
      * destruct (index r "="%char); discriminate.
      * intros H. exfalso. apply H. now exists r.
    + destruct (index r "="%char); discriminate.
  - rewrite (parse_no_dashes s n0 v0 E). split; [|reflexivity].
    split; [|reflexivity]. intros _ H. apply dashes_iff in H. congruence.
Qed.

(** X4: for an argument [--name] without [=], [parse_option] returns 1 and
    sets the name only: [*value] still holds what it held before the call,
    the value of an earlier option if there was one. *)
Theorem parse_option_bare_keeps_value nm n0 v0 :
  index nm "="%char = None ->
  let p := parse_option (Some ("--" ++ nm)%string) n0 v0 in
  ret p = 1 /\ name p = Some nm /\ value p = v0
  /\ buffer p = Some ("--" ++ nm)%string.
Proof.
  intros H p. subst p. rewrite (parse_bare nm n0 v0 H).
  repeat split; reflexivity.
Qed.

(** X5: [parse_option] returns -1, 0, 1 or 2, and -1 only for the null
    pointer; whenever it returns 1 or 2 the name it sets is not null, and
    whenever it returns 2 neither is the value. *)
Theorem parse_option_results option n0 v0 :
  let p := parse_option option n0 v0 in
  (ret p = -1 \/ ret p = 0 \/ ret p = 1 \/ ret p = 2)
  /\ (ret p = -1 <-> option = None)
  /\ (1 <= ret p -> name p <> None)
  /\ (ret p = 2 -> value p <> None).
Proof.
  intros p. subst p. destruct option as [s|].
  - destruct (strncmp_eq s "--" 2) eqn:E.
    + apply dashes_iff in E as [r ->]. rewrite parse_dashes.
      destruct (index r "="%char); cbn [ret name value];
        (split; [auto|]); (split; [split; discriminate|]);
        split; intros; discriminate.
    + rewrite (parse_no_dashes s n0 v0 E). cbn [ret name value].
      split; [auto|]. split; [split; discriminate|].
      split; intros; [lia|discriminate].
  - simpl. split; [auto|]. split; [tauto|]. split; intros; lia.
Qed.

(** *** The option loop *)

Lemma upd_length {A : Type} (l : list A) : forall n x,
  length (upd l n x) = length l.
Proof.
  induction l as [|h t IH]; intros [|n] x; simpl; try reflexivity.
  now rewrite IH.
Qed.

Lemma nth_error_upd {A : Type} (l : list A) : forall n x j,
  nth_error (upd l n x) j
  = if (j =? n)%nat then option_map (fun _ => x) (nth_error l n)
    else nth_error l j.
Proof.
  induction l as [|h t IH]; intros n x j.
  - destruct (j =? n)%nat; destruct n, j; reflexivity.
  - destruct n as [|n], j as [|j]; simpl; try reflexivity. apply IH.
Qed.

Lemma in_upd {A : Type} (l : list A) : forall n x y,
  In y (upd l n x) -> y = x \/ In y l.
Proof.
  induction l as [|h t IH]; intros [|n] x y; simpl; try tauto.
  - intros [H|H]; auto.
  - intros [H|H]; auto. destruct (IH n x y H); auto.
Qed.

Lemma unsplit_upd (l : list string) : forall n a b,
  nth_error l n = Some a -> splits a = true -> splits b = false ->
  (unsplit (upd l n b) < unsplit l)%nat.
Proof.
  unfold unsplit.
  induction l as [|h t IH]; intros [|n] a b Hn Ha Hb; simpl in *;
    try discriminate.
  - injection Hn as ->. rewrite Ha, Hb. simpl. lia.
  - specialize (IH n a b Hn Ha Hb). destruct (splits h); simpl; lia.
Qed.

Lemma index_app_found a c b : exists k, index (a ++ String c b) c = Some k.
Proof.
  induction a as [|x a [k IH]]; simpl.
  - rewrite Ascii.eqb_refl. now exists 0%nat.
  - destruct (Ascii.eqb x c); [now exists 0%nat|].
    rewrite IH. now exists (S k).
Qed.

Lemma splits_split nm v : splits ("--" ++ nm ++ "=" ++ v)%string = true.
Proof.
  unfold splits.
  change (strncmp_eq ("--" ++ nm ++ "=" ++ v) "--" 2) with true.
  change (drop 2 ("--" ++ nm ++ "=" ++ v)) with (nm ++ String "=" v)%string.
  destruct (index_app_found nm "=" v) as [k ->]. reflexivity.
Qed.

Lemma splits_bare nm : index nm "="%char = None -> splits ("--" ++ nm) = false.
Proof.
  intros H. unfold splits.
  change (drop 2 ("--" ++ nm)) with nm. rewrite H. apply andb_false_r.
Qed.

Section WithLibc.

Variable strtoull : string -> Z * Z.
Variable strtoul : string -> Z * Z.

(** The turn of the loop at an argument that has a value. *)
Lemma step_split st nm v :
  current st = Some ("--" ++ nm ++ "=" ++ v)%string ->
  index nm "="%char = None ->
  option_step strtoull strtoul st
  = if (nm =? "help")%string then Stop (Exit 0)
    else if (nm =? "mode")%string then
      Next (next_with (cut st nm v)
              (fst (set_mode v (mode (vars st))) + 1)
              (set_mode_cells (vars st) (snd (set_mode v (mode (vars st))))))
    else if (nm =? "start")%string then
      if snd (strtoull v) =? 0
      then Next (next_with (cut st nm v) (i st + 1)
                   (set_fstart (vars st) (CInt.u64 (fst (strtoull v)))))
      else Stop (Exit (-1))
    else if (nm =? "stop")%string then
      if snd (strtoull v) =? 0
      then Next (next_with (cut st nm v) (i st + 1)
                   (set_fstop (vars st) (CInt.u64 (fst (strtoull v)))))
      else Stop (Exit (-1))
    else if (nm =? "rbw")%string then
      if snd (strtoul v) =? 0
      then Next (next_with (cut st nm v) (i st + 1)
                   (set_rbw (vars st) (CInt.u64 (fst (strtoul v)))))
      else Stop (Exit (-1))
    else if (nm =? "peaks")%string then
      if snd (strtoul v) =? 0
      then Next (next_with (cut st nm v) (i st + 1)
                   (set_peaks (vars st) (CInt.u32 (fst (strtoul v)))))
      else Stop (Exit (-1))
    else Stop (Exit (-1)).
Proof.
  unfold current. intros Hc Hn. unfold Options.option_step.
  rewrite Hc, (parse_split nm v _ _ Hn).
  cbn [ret name value buffer Options.i Options.argv Options.optname
       Options.optvalue Options.vars Z.eqb Z.ltb Z.compare Pos.compare
       Pos.compare_cont negb].
  destruct (nm =? "help")%string; [reflexivity|].
  destruct (nm =? "mode")%string.
  { destruct (set_mode v (mode (vars st))) as [i' m]. reflexivity. }
  destruct (nm =? "start")%string.
  { destruct (strtoull v) as [x e]. cbn [fst snd].
    destruct (e =? 0); reflexivity. }
  destruct (nm =? "stop")%string.
  { destruct (strtoull v) as [x e]. cbn [fst snd].
    destruct (e =? 0); reflexivity. }
  destruct (nm =? "rbw")%string.
  { destruct (strtoul v) as [x e]. cbn [fst snd].
    destruct (e =? 0); reflexivity. }
  destruct (nm =? "peaks")%string.
  { destruct (strtoul v) as [x e]. cbn [fst snd].
    destruct (e =? 0); reflexivity. }
  reflexivity.
Qed.

(** The turn of the loop at an option without a value. *)
Lemma step_bare st nm :
  current st = Some ("--" ++ nm)%string ->
  index nm "="%char = None ->
  option_step strtoull strtoul st
  = if (nm =? "help")%string then Stop (Exit 0) else Stop (Exit (-1)).
Proof.
  unfold current. intros Hc Hn. unfold Options.option_step.
  rewrite Hc, (parse_bare nm _ _ Hn).
  cbn [ret name value buffer Options.i Options.argv Options.optname
       Options.optvalue Options.vars Z.eqb Z.ltb Z.compare Pos.compare
       Pos.compare_cont negb].
  destruct (nm =? "help")%string; [reflexivity|].
  destruct (nm =? "mode")%string; [reflexivity|].
  destruct (nm =? "start")%string; [reflexivity|].
  destruct (nm =? "stop")%string; [reflexivity|].
  destruct (nm =? "rbw")%string; [reflexivity|].
  destruct (nm =? "peaks")%string; reflexivity.
Qed.

(** The turn of the loop at an argument that is no option. *)
Lemma step_host st host :
  current st = Some host ->
  strncmp_eq host "--" 2 = false ->
  option_step strtoull strtoul st
  = Leave {| i := i st; argv := upd (argv st) (Z.to_nat (i st)) host;
             optname := None; optvalue := None; vars := vars st |}.
Proof.
  unfold current. intros Hc Hn. unfold Options.option_step.
  rewrite Hc, (parse_no_dashes host _ _ Hn). reflexivity.
Qed.

Lemma step_end st : current st = None -> option_step strtoull strtoul st = Leave st.
Proof.
  unfold current. intros Hc. unfold Options.option_step. now rewrite Hc.
Qed.

(** What a turn of the loop can do. *)
Lemma step_kinds st :
  match option_step strtoull strtoul st with
  | Next st' =>
      exists nm v,
        current st = Some ("--" ++ nm ++ "=" ++ v)%string
        /\ index nm "="%char = None
        /\ argv st' = upd (argv st) (Z.to_nat (i st)) ("--" ++ nm)%string
  | Leave st' =>
      (current st = None /\ st' = st)
      \/ (exists host,
            current st = Some host /\ strncmp_eq host "--" 2 = false
            /\ current st' = Some host /\ vars st' = vars st)
  | Stop e => e = Exit 0 \/ e = Exit (-1)
  end.
Proof.
  destruct (current st) as [arg|] eqn:Hc.
  - destruct (strncmp_eq arg "--" 2) eqn:Ed.
    + apply dashes_iff in Ed as [r ->].
      destruct (index r "="%char) as [k|] eqn:Ek.
      * destruct (index_split _ _ _ Ek) as (H1 & H2 & _).
        set (nm := take k r) in *. set (v := drop (S k) r) in *.
        assert (Hc' : current st = Some ("--" ++ nm ++ "=" ++ v)%string)
          by (rewrite Hc; do 2 f_equal; exact H1).
        rewrite (step_split st nm v Hc' H2).
        destruct (nm =? "help")%string; [now left|].
        destruct (nm =? "mode")%string; [exists nm, v; split; [now rewrite <- Hc|split; [exact H2|reflexivity]]|].
        destruct (nm =? "start")%string.
        { destruct (snd (strtoull v) =? 0); [exists nm, v; split; [now rewrite <- Hc|split; [exact H2|reflexivity]]|now right]. }
        destruct (nm =? "stop")%string.
        { destruct (snd (strtoull v) =? 0); [exists nm, v; split; [now rewrite <- Hc|split; [exact H2|reflexivity]]|now right]. }
        destruct (nm =? "rbw")%string.
        { destruct (snd (strtoul v) =? 0); [exists nm, v; split; [now rewrite <- Hc|split; [exact H2|reflexivity]]|now right]. }
        destruct (nm =? "peaks")%string.
        { destruct (snd (strtoul v) =? 0); [exists nm, v; split; [now rewrite <- Hc|split; [exact H2|reflexivity]]|now right]. }
        now right.
      * rewrite (step_bare st r Hc Ek).
        destruct (r =? "help")%string; [now left|now right].
    + rewrite (step_host st arg Hc Ed). right. exists arg.
      split; [reflexivity|]. split; [exact Ed|]. split; [|reflexivity].
      unfold current in *. cbn [Options.i Options.argv].
      now rewrite nth_error_upd, Nat.eqb_refl, Hc.
  - rewrite (step_end st Hc). now left.
Qed.

Lemma loop_result fuel : forall st,
  (unsplit (argv st) < fuel)%nat ->
  match option_loop strtoull strtoul fuel st with
  | Exit c => c = 0 \/ c = -1
  | Parsed host _ => In host (argv st) /\ strncmp_eq host "--" 2 = false
  | Running | Undefined => False
  end.
Proof.
  induction fuel as [|fuel IH]; intros st Hf; [lia|].
  cbn [Options.option_loop]. pose proof (step_kinds st) as Hk.
  destruct (option_step strtoull strtoul st) as [st'|st'|e].
  - destruct Hk as (nm & v & Hc & Hn & Ha).
    assert (Hlt : (unsplit (argv st') < unsplit (argv st))%nat).
    { rewrite Ha. apply (unsplit_upd _ _ _ _ Hc).
      - apply splits_split.
      - now apply splits_bare. }
    specialize (IH st' ltac:(lia)).
    destruct (option_loop strtoull strtoul fuel st') as [c|host o| |];
      try exact IH.
    destruct IH as [Hin Hd]. split; [|exact Hd].
    rewrite Ha in Hin. apply in_upd in Hin as [->|Hin]; [|exact Hin].
    discriminate Hd.
  - unfold after_loop. destruct Hk as [[Hc ->]|(host & Hc & Hd & Hc' & _)].
    + unfold current in Hc. rewrite Hc. now right.
    + unfold current in Hc'. rewrite Hc'. split; [|exact Hd].
      unfold current in Hc. now apply nth_error_In in Hc.
  - destruct Hk as [->| ->]; [now left|now right].
Qed.

Lemma unsplit_le_length argv : (unsplit argv <= length argv)%nat.
Proof. unfold unsplit. apply filter_length_le. Qed.

(** X6: the option loop ends within [argc] turns, although an option can
    set the index back: [main] then returns 0 or -1, or goes on with a host
    that is one of the arguments as they were given and does not start with
    two dashes; it never takes a null pointer for a string. *)
Theorem parse_args_ends fuel argv :
  (length argv < fuel)%nat ->
  match parse_args strtoull strtoul fuel argv with
  | Exit c => c = 0 \/ c = -1
  | Parsed host _ => In host argv /\ strncmp_eq host "--" 2 = false
  | Running | Undefined => False
  end.
Proof.
  intros Hf. unfold Options.parse_args.
  apply (loop_result fuel
           {| i := 1; argv := argv; optname := None; optvalue := None;
              vars := defaults |}).
  cbn [Options.argv]. pose proof (unsplit_le_length argv). lia.
Qed.

Lemma copy_mode_fst rest : forall i m,
  0 <= i <= 16 ->
  fst (copy_mode rest i m) = Z.min (i + Z.of_nat (String.length rest)) 16.
Proof.
  induction rest as [|c rest IH]; intros i m Hi; simpl.
  - lia.
  - destruct (16 <=? i) eqn:E.
    + apply Z.leb_le in E. simpl. lia.
    + apply Z.leb_gt in E. rewrite IH by lia. lia.
Qed.

Lemma set_mode_fst v m :
  fst (set_mode v m) = Z.min (Z.of_nat (String.length v)) 16.
Proof.
  unfold set_mode. pose proof (copy_mode_fst v 0 m ltac:(lia)) as H.
  destruct (copy_mode v 0 m) as [i m']. simpl in *. lia.
Qed.

(** X7: after [--mode=v] the loop does not go on at the next argument but
    at argument min(strlen(v), 16) + 1, wherever the option stood: the copy
    loop counts in the same [i] as the option loop.  The other settings are
    kept and the argument is cut down to [--mode]. *)
Theorem mode_option_resets_index st v :
  current st = Some ("--mode=" ++ v)%string ->
  exists st',
    option_step strtoull strtoul st = Next st'
    /\ i st' = Z.min (Z.of_nat (String.length v)) 16 + 1
    /\ argv st' = upd (argv st) (Z.to_nat (i st)) "--mode"%string
    /\ vars st'
       = set_mode_cells (vars st) (snd (set_mode v (mode (vars st)))).
Proof.
  intros Hc. eexists. split.
  - apply (step_split st "mode" v Hc). reflexivity.
  - cbn [Options.i Options.argv Options.vars next_with cut].
    rewrite set_mode_fst. repeat split; reflexivity.
Qed.

(** X8: a command line of the form [prog --mode=v host] with a mode of two
    or more characters never reaches the host: the index is past the end of
    [argv] after the option, and [main] returns -1. *)
Theorem mode_option_loses_host fuel prog v host :
  (2 <= String.length v)%nat ->
  parse_args strtoull strtoul (S (S fuel)) [prog; ("--mode=" ++ v)%string; host]
  = Exit (-1).
Proof.
  intros Hv. unfold Options.parse_args.
  set (st := {| i := 1; argv := [prog; ("--mode=" ++ v)%string; host];
                optname := None; optvalue := None; vars := defaults |}).
  cbn [Options.option_loop].
  rewrite (step_split st "mode" v eq_refl eq_refl).
  cbn [String.eqb Ascii.eqb Bool.eqb].
  rewrite step_end.
  - unfold after_loop. cbn [Options.i Options.argv next_with cut].
    rewrite set_mode_fst.
    replace (nth_error _ _) with (@None string); [reflexivity|].
    symmetry. apply nth_error_None. rewrite upd_length. simpl. lia.
  - unfold current. cbn [Options.i Options.argv next_with cut].
    rewrite set_mode_fst.
    apply nth_error_None. rewrite upd_length. simpl. lia.
Qed.

(** X10: with no option before it, an argument that does not start with
    two dashes is taken as the host, and the settings are the defaults:
    2000 MHz to 3000 MHz, 100 kHz, one peak. *)
Theorem host_alone_keeps_defaults fuel prog host rest :
  strncmp_eq host "--" 2 = false ->
  parse_args strtoull strtoul (S fuel) (prog :: host :: rest)
  = Parsed host defaults
  /\ fstart defaults = 2000000000 /\ fstop defaults = 3000000000
  /\ rbw defaults = 100000 /\ peaks defaults = 1
  /\ c_string (mode defaults) = Some "SH"%string.
Proof.
  intros Hd. split; [|repeat split; reflexivity].
  unfold Options.parse_args.
  set (st := {| i := 1; argv := prog :: host :: rest; optname := None;
                optvalue := None; vars := defaults |}).
  cbn [Options.option_loop].
  rewrite (step_host st host eq_refl Hd). reflexivity.
Qed.

(** X11: the four numeric options.  [--start] and [--stop] store what
    [strtoull] returns, [--rbw] what [strtoul] returns, [--peaks] the
    32 low bits of what [strtoul] returns; the loop goes on at the next
    argument.  When the conversion sets [errno], [main] returns -1. *)
Theorem numeric_options st v :
  (current st = Some ("--start=" ++ v)%string ->
   option_step strtoull strtoul st
   = if snd (strtoull v) =? 0
     then Next (next_with (cut st "start" v) (i st + 1)
                  (set_fstart (vars st) (CInt.u64 (fst (strtoull v)))))
     else Stop (Exit (-1)))
  /\ (current st = Some ("--stop=" ++ v)%string ->
      option_step strtoull strtoul st
      = if snd (strtoull v) =? 0
        then Next (next_with (cut st "stop" v) (i st + 1)
                     (set_fstop (vars st) (CInt.u64 (fst (strtoull v)))))
        else Stop (Exit (-1)))
  /\ (current st = Some ("--rbw=" ++ v)%string ->
      option_step strtoull strtoul st
      = if snd (strtoul v) =? 0
        then Next (next_with (cut st "rbw" v) (i st + 1)
                     (set_rbw (vars st) (CInt.u64 (fst (strtoul v)))))
        else Stop (Exit (-1)))
  /\ (current st = Some ("--peaks=" ++ v)%string ->
      option_step strtoull strtoul st
      = if snd (strtoul v) =? 0
        then Next (next_with (cut st "peaks" v) (i st + 1)
                     (set_peaks (vars st) (CInt.u32 (fst (strtoul v)))))
        else Stop (Exit (-1))).
Proof.
  repeat split; intros Hc.
  - apply (step_split st "start" v Hc). reflexivity.
  - apply (step_split st "stop" v Hc). reflexivity.
  - apply (step_split st "rbw" v Hc). reflexivity.
  - apply (step_split st "peaks" v Hc). reflexivity.
Qed.

(** X12: an option without [=] ends [main] at once, with 0 when it is
    [--help] and with -1 otherwise, also when its name is one of the known
    options; so does an option with a value whose name is none of [help],
    [mode], [start], [stop], [rbw] and [peaks]. *)
Theorem options_that_end_main st nm :
  index nm "="%char = None ->
  (current st = Some ("--" ++ nm)%string ->
   option_step strtoull strtoul st
   = Stop (Exit (if (nm =? "help")%string then 0 else -1)))
  /\ (forall v,
        current st = Some ("--" ++ nm ++ "=" ++ v)%string ->
        ~ In nm ["help"; "mode"; "start"; "stop"; "rbw"; "peaks"]%string ->
        option_step strtoull strtoul st = Stop (Exit (-1))).
Proof.
  intros Hn. split.
  - intros Hc. rewrite (step_bare st nm Hc Hn).
    now destruct (nm =? "help")%string.
  - intros v Hc Hin. rewrite (step_split st nm v Hc Hn).
    repeat match goal with
           | |- context [(nm =? ?s)%string] =>
               destruct (String.eqb_spec nm s) as [->|_];
               [exfalso; apply Hin; simpl; tauto|]
           end.
    reflexivity.
Qed.

End WithLibc.

Lemma copy_mode_length rest : forall i m,
  length (snd (copy_mode rest i m)) = length m.
Proof.
  induction rest as [|c rest IH]; intros i m; simpl; [reflexivity|].
  destruct (16 <=? i); [reflexivity|]. now rewrite IH, upd_length.
Qed.

Lemma copy_mode_nth rest : forall i m j,
  0 <= i ->
  nth_error (snd (copy_mode rest i m)) j
  = if ((Z.to_nat i <=? j) && (j <? 16))%nat
    then match String.get (j - Z.to_nat i) rest with
         | Some c => option_map (fun _ => Some (toupper c)) (nth_error m j)
         | None => nth_error m j
         end
    else nth_error m j.
Proof.
  induction rest as [|c rest IH]; intros i m j Hi.
  - simpl. now destruct ((Z.to_nat i <=? j) && (j <? 16))%nat.
  - cbn [copy_mode]. destruct (16 <=? i) eqn:E.
    + apply Z.leb_le in E. cbn [snd].
      destruct (Nat.leb_spec (Z.to_nat i) j); [|reflexivity].
      destruct (Nat.ltb_spec j 16); [lia|reflexivity].
    + apply Z.leb_gt in E. rewrite IH by lia. rewrite nth_error_upd.
      replace (Z.to_nat (i + 1)) with (S (Z.to_nat i)) by lia.
      destruct (Nat.eqb_spec j (Z.to_nat i)) as [->|Hne].
      * rewrite Nat.leb_refl.
        destruct (Nat.leb_spec (S (Z.to_nat i)) (Z.to_nat i)); [lia|].
        destruct (Nat.ltb_spec (Z.to_nat i) 16); [|lia].
        cbn [andb]. now rewrite Nat.sub_diag.
      * destruct (Nat.leb_spec (S (Z.to_nat i)) j).
        -- destruct (Nat.leb_spec (Z.to_nat i) j); [|lia].
           replace (j - Z.to_nat i)%nat with (S (j - S (Z.to_nat i))) by lia.
           reflexivity.
        -- destruct (Nat.leb_spec (Z.to_nat i) j); [lia|reflexivity].
Qed.

(** X9: what [--mode=v] leaves in the 16 cells of [mode]: the first
    min(strlen(v), 15) cells hold the characters of [v] in upper case, cell
    15 holds NUL, and every cell between is as it was; no NUL is stored
    after the copy, so a mode shorter than the old one keeps the old
    tail. *)
Theorem set_mode_cells_spec v m :
  length m = 16%nat ->
  length (snd (set_mode v m)) = 16%nat
  /\ nth_error (snd (set_mode v m)) 15 = Some (Some Ascii.zero)
  /\ forall j, (j < 15)%nat ->
       nth_error (snd (set_mode v m)) j
       = match String.get j v with
         | Some c => Some (Some (toupper c))
         | None => nth_error m j
         end.
Proof.
  intros Hm. unfold set_mode.
  pose proof (copy_mode_length v 0 m) as Hl.
  pose proof (copy_mode_nth v 0 m) as Hn.
  destruct (copy_mode v 0 m) as [i' m']. cbn [snd] in *.
  split; [now rewrite upd_length, Hl|]. split.
  - rewrite nth_error_upd, Nat.eqb_refl.
    destruct (nth_error m' 15) eqn:E; [reflexivity|].
    apply nth_error_None in E. lia.
  - intros j Hj. rewrite nth_error_upd.
    destruct (Nat.eqb_spec j 15); [lia|].
    rewrite Hn by lia. change (Z.to_nat 0) with 0%nat.
    rewrite Nat.sub_0_r. cbn [Nat.leb].
    destruct (Nat.ltb_spec j 16); [|lia]. cbn [andb].
    destruct (String.get j v); [|reflexivity].
    destruct (nth_error m j) eqn:E; [reflexivity|].
    apply nth_error_None in E. lia.
Qed.

(** *** Runs of the option parser *)

Lemma parse_option_splits_at_first_equals_witness :
  index "start" "="%char = None
  /\ ret (parse_option (Some "--start=12=3"%string) None None) = 2
  /\ value (parse_option (Some "--start=12=3"%string) None None)
     = Some "12=3"%string.
Proof.
  split; [reflexivity|].
  destruct (parse_option_splits_at_first_equals "start" "12=3" None None
              eq_refl) as (H1 & _ & H3 & _).
  split; [exact H1|exact H3].
Defined.

Lemma parse_option_two_inverts_witness :
  ret (parse_option (Some "--rbw=5"%string) None None) = 2
  /\ exists nm v, "--rbw=5"%string = ("--" ++ nm ++ "=" ++ v)%string
                 /\ index nm "="%char = None.
Proof.
  split; [reflexivity|].
  destruct (parse_option_two_inverts "--rbw=5" None None eq_refl)
    as (nm & v & H1 & H2 & _).
  exists nm, v. split; [exact H1|exact H2].
Defined.

Lemma parse_option_bare_keeps_value_witness :
  index "help" "="%char = None
  /\ value (parse_option (Some "--help"%string) None (Some "2"%string))
     = Some "2"%string.
Proof.
  split; [reflexivity|].
  destruct (parse_option_bare_keeps_value "help" None (Some "2"%string)
              eq_refl) as (_ & _ & H3 & _).
  exact H3.
Defined.

Lemma parse_args_ends_witness :
  (length ["prog"; "--start=5"; "10.0.0.1"]%string < 4)%nat
  /\ In "10.0.0.1"%string ["prog"; "--start=5"; "10.0.0.1"]%string.
Proof.
  assert (H : (length ["prog"; "--start=5"; "10.0.0.1"]%string < 4)%nat)
    by (simpl; lia).
  split; [exact H|].
  exact (proj1 (parse_args_ends strto_decimal strto_decimal 4
                  ["prog"; "--start=5"; "10.0.0.1"]%string H)).
Defined.

Lemma mode_option_resets_index_witness :
  current MoreInputs.at_mode_option = Some "--mode=a"%string
  /\ exists st',
       option_step strto_decimal strto_decimal MoreInputs.at_mode_option
       = Next st'
       /\ i st' = 2.
Proof.
  split; [reflexivity|].
  destruct (mode_option_resets_index strto_decimal strto_decimal
              MoreInputs.at_mode_option "a" eq_refl)
    as (st' & H1 & H2 & _).
  exists st'. split; [exact H1|exact H2].
Defined.

Lemma mode_option_loses_host_witness :
  (2 <= String.length "sh")%nat
  /\ parse_args strto_decimal strto_decimal 2
       ["prog"; "--mode=sh"; "10.0.0.1"]%string
     = Exit (-1).
Proof.
  assert (H : (2 <= String.length "sh")%nat) by (simpl; lia).
  split; [exact H|].
  exact (mode_option_loses_host strto_decimal strto_decimal 0
           "prog" "sh" "10.0.0.1" H).
Defined.

Lemma set_mode_cells_spec_witness :
  length (mode defaults) = 16%nat
  /\ nth_error (snd (set_mode "x" (mode defaults))) 0
     = Some (Some "X"%char)
  /\ nth_error (snd (set_mode "x" (mode defaults))) 1
     = Some (Some "H"%char).
Proof.
  split; [reflexivity|].
  destruct (set_mode_cells_spec "x" (mode defaults) eq_refl)
    as (_ & _ & H).
  split; [exact (H 0%nat ltac:(lia))|exact (H 1%nat ltac:(lia))].
Defined.

Lemma host_alone_keeps_defaults_witness :
  strncmp_eq "10.0.0.1" "--" 2 = false
  /\ parse_args strto_decimal strto_decimal 1 ["prog"; "10.0.0.1"]%string
     = Parsed "10.0.0.1" defaults.
Proof.
  split; [reflexivity|].
  exact (proj1 (host_alone_keeps_defaults strto_decimal strto_decimal 0
                  "prog" "10.0.0.1" [] eq_refl)).
Defined.

Lemma numeric_options_witness :
  current (MoreInputs.at_first "--peaks=4294967297")
  = Some "--peaks=4294967297"%string
  /\ option_step strto_decimal strto_decimal
       (MoreInputs.at_first "--peaks=4294967297")
     = Next (next_with (cut (MoreInputs.at_first "--peaks=4294967297")
                          "peaks" "4294967297")
               2 (set_peaks defaults 1)).
Proof.
  split; [reflexivity|].
  exact (proj2 (proj2 (proj2
           (numeric_options strto_decimal strto_decimal
              (MoreInputs.at_first "--peaks=4294967297") "4294967297")))
           eq_refl).
Defined.

Lemma options_that_end_main_witness :
  index "verbose" "="%char = None
  /\ option_step strto_decimal strto_decimal
       (MoreInputs.at_first "--verbose")
     = Stop (Exit (-1))
  /\ option_step strto_decimal strto_decimal
       (MoreInputs.at_first "--verbose=1")
     = Stop (Exit (-1)).
Proof.
  split; [reflexivity|].
  destruct (options_that_end_main strto_decimal strto_decimal
              (MoreInputs.at_first "--verbose") "verbose" eq_refl)
    as [H1 _].
  destruct (options_that_end_main strto_decimal strto_decimal
              (MoreInputs.at_first "--verbose=1") "verbose" eq_refl)
    as [_ H2].
  split; [exact (H1 eq_refl)|].
  apply (H2 "1"%string eq_refl).
  simpl. intros [H|[H|[H|[H|[H|[H|[]]]]]]]; discriminate H.
Defined.

End OptionsFacts.

(** ** More on the capture and on the allocation *)

Module SweepMore.
Import Sweep SweepFacts.

Section WithConstants.

Variable amp : Type.
Variable K : wsa_constants.
Variable dev : wsa_device.

Implicit Types (s : dev_state) (cfg : wsa_power_spectrum_config amp).

(** How the loop is left, by the first reply that is not skipped. *)
Lemma read_loop_outcome fuel : forall s,
  match fst (read_loop K dev fuel s) with
  | Loop_running =>
      (forall j, (j < fuel)%nat ->
                 skipped K (read_reply dev (reads_done s + j)))
      /\ snd (read_loop K dev fuel s) = after_reads s fuel
  | Loop_break h =>
      exists k,
        (k < fuel)%nat
        /\ (forall j, (j < k)%nat ->
                      skipped K (read_reply dev (reads_done s + j)))
        /\ carries_if K (read_reply dev (reads_done s + k))
        /\ h = snd (read_reply dev (reads_done s + k))
        /\ snd (read_loop K dev fuel s) = after_reads s (S k)
  | Loop_return r =>
      r = -1
      /\ exists k,
           (k < fuel)%nat
           /\ (forall j, (j < k)%nat ->
                         skipped K (read_reply dev (reads_done s + j)))
           /\ failed (read_reply dev (reads_done s + k))
           /\ snd (read_loop K dev fuel s) = after_reads s (S k)
  end.
Proof.
  induction fuel as [|fuel IH]; intros s.
  - simpl. split; [intros j Hj; lia|now rewrite after_reads_0].
  - rewrite read_loop_S. cbv zeta.
    destruct (fst (read_reply dev (reads_done s)) <? 0) eqn:E1.
    { apply Z.ltb_lt in E1. cbn [fst snd]. split; [reflexivity|].
      exists 0%nat. rewrite Nat.add_0_r.
      split; [lia|]. split; [intros j Hj; lia|]. split; [exact E1|].
      reflexivity. }
    apply Z.ltb_ge in E1.
    destruct (packet_type (snd (read_reply dev (reads_done s)))
              =? IF_PACKET_TYPE K) eqn:E2.
    { apply Z.eqb_eq in E2. cbn [fst snd].
      exists 0%nat. rewrite Nat.add_0_r.
      split; [lia|]. split; [intros j Hj; lia|].
      split; [split; assumption|]. split; reflexivity. }
    apply Z.eqb_neq in E2.
    assert (Hs : forall j, (j < 1)%nat ->
                   skipped K (read_reply dev (reads_done s + j))).
    { intros j Hj. replace j with 0%nat by lia. rewrite Nat.add_0_r.
      split; assumption. }
    assert (Hshift : forall k (P : Z * wsa_vrt_packet_header -> Prop),
               (forall j, (j < k)%nat ->
                  P (read_reply dev (reads_done (after_reads s 1) + j))) ->
               (forall j, (j < 1)%nat ->
                  P (read_reply dev (reads_done s + j))) ->
               forall j, (j < S k)%nat ->
                  P (read_reply dev (reads_done s + j))).
    { intros k P H1 H0 [|j] Hj; [apply H0; lia|].
      specialize (H1 j ltac:(lia)). cbn [after_reads reads_done] in H1.
      now replace (reads_done s + S j)%nat with (reads_done s + 1 + j)%nat
        by lia. }
    specialize (IH (after_reads s 1)).
    destruct (fst (read_loop K dev fuel (after_reads s 1))) as [r|h|].
    + destruct IH as (-> & k & Hk & Hsk & Hf & E). split; [reflexivity|].
      exists (S k). split; [lia|]. split; [now apply Hshift|].
      cbn [after_reads reads_done] in Hf.
      replace (reads_done s + S k)%nat with (reads_done s + 1 + k)%nat
        by lia.
      split; [exact Hf|]. now rewrite E, after_reads_S.
    + destruct IH as (k & Hk & Hsk & Hi & -> & E).
      exists (S k). split; [lia|]. split; [now apply Hshift|].
      cbn [after_reads reads_done] in *.
      replace (reads_done s + S k)%nat with (reads_done s + 1 + k)%nat
        by lia.
      split; [exact Hi|]. split; [reflexivity|].
      now rewrite E, after_reads_S.
    + destruct IH as (Hsk & E). split; [now apply Hshift|].
      now rewrite E, after_reads_S.
Qed.

(** Once the loop is left, more turns change nothing. *)
Lemma read_loop_more fuel : forall s extra,
  fst (read_loop K dev fuel s) <> Loop_running ->
  read_loop K dev (fuel + extra) s = read_loop K dev fuel s.
Proof.
  induction fuel as [|fuel IH]; intros s extra H.
  - now contradiction H.
  - cbn [Nat.add]. rewrite !read_loop_S in *. cbv zeta in *.
    destruct (fst (read_reply dev (reads_done s)) <? 0); [reflexivity|].
    destruct (packet_type (snd (read_reply dev (reads_done s)))
              =? IF_PACKET_TYPE K); [reflexivity|].
    now apply IH.
Qed.

(** X13: the loop has no deadline of its own.  While the device keeps
    answering every read with a packet that is not an IF packet, the call
    does not return: after any number of turns it is still reading, one
    packet per turn. *)
Theorem capture_reads_forever fuel cfg p s :
  0 <= capture_block_result dev ->
  (forall j, skipped K (read_reply dev (reads_done s + j))) ->
  status (fst (wsa_capture_power_spectrum K dev fuel cfg p s)) = None
  /\ snd (wsa_capture_power_spectrum K dev fuel cfg p s)
     = after_reads (triggered K s) fuel.
Proof.
  intros Hc Hs.
  assert (E : read_loop K dev fuel (triggered K s)
              = (Loop_running, after_reads (triggered K s) fuel)).
  { replace fuel with (fuel + 0)%nat at 1 by lia.
    rewrite read_loop_skips by (intros j _; apply Hs). reflexivity. }
  rewrite capture_unfold. cbv zeta.
  apply Z.ltb_ge in Hc. rewrite Hc, E. split; reflexivity.
Qed.

(** Once the call has returned, the number of turns the loop was
    allowed does not matter: with any larger number the call returns the same
    value, the same header and leaves the device in the same state. *)
Theorem capture_result_is_final fuel extra cfg p s :
  status (fst (wsa_capture_power_spectrum K dev fuel cfg p s)) <> None ->
  wsa_capture_power_spectrum K dev (fuel + extra) cfg p s
  = wsa_capture_power_spectrum K dev fuel cfg p s.
Proof.
  rewrite !capture_unfold. cbv zeta.
  destruct (capture_block_result dev <? 0); [reflexivity|].
  intros H. rewrite read_loop_more; [reflexivity|].
  intros E. rewrite E in H. now apply H.
Qed.

(** X14: the call returns 0 only if the trigger was accepted and some read
    brought an IF packet after reads that were all skipped; the header
    handed out is the one of that packet, which the dump labels type=IF, and
    exactly that many packets were read. *)
Theorem capture_success_inverts fuel cfg p s :
  status (fst (wsa_capture_power_spectrum K dev fuel cfg p s)) = Some 0 ->
  0 <= capture_block_result dev
  /\ exists k,
       (k < fuel)%nat
       /\ (forall j, (j < k)%nat ->
                     skipped K (read_reply dev (reads_done s + j)))
       /\ carries_if K (read_reply dev (reads_done s + k))
       /\ header_after (fst (wsa_capture_power_spectrum K dev fuel cfg p s))
          = Some (snd (read_reply dev (reads_done s + k)))
       /\ dump_type_label K (snd (read_reply dev (reads_done s + k)))
          = TYPE_IF
       /\ snd (wsa_capture_power_spectrum K dev fuel cfg p s)
          = after_reads (triggered K s) (S k).
Proof.
  rewrite capture_unfold. cbv zeta.
  destruct (capture_block_result dev <? 0) eqn:E; [discriminate|].
  apply Z.ltb_ge in E. cbn [fst snd].
  pose proof (read_loop_outcome fuel (triggered K s)) as H.
  destruct (fst (read_loop K dev fuel (triggered K s))) as [r|h|];
    cbn [status]; intros Hst.
  - destruct H as [-> _]. discriminate.
  - split; [exact E|]. destruct H as (k & Hk & Hs & Hi & -> & Hsnd).
    exists k. cbn [triggered reads_done] in *.
    split; [exact Hk|]. split; [exact Hs|]. split; [exact Hi|].
    split; [reflexivity|]. split; [|exact Hsnd].
    unfold dump_type_label. destruct Hi as [_ Hi].
    apply Z.eqb_eq in Hi. now rewrite Hi.
  - discriminate.
Qed.

(** X15: the call returns -1 only if the trigger was refused, in which case
    no packet was read, or if a read failed after reads that were all
    skipped, in which case that read was the last. *)
Theorem capture_failure_inverts fuel cfg p s :
  status (fst (wsa_capture_power_spectrum K dev fuel cfg p s)) = Some (-1) ->
  (capture_block_result dev < 0
   /\ snd (wsa_capture_power_spectrum K dev fuel cfg p s) = triggered K s)
  \/ (0 <= capture_block_result dev
      /\ exists k,
           (k < fuel)%nat
           /\ (forall j, (j < k)%nat ->
                         skipped K (read_reply dev (reads_done s + j)))
           /\ failed (read_reply dev (reads_done s + k))
           /\ snd (wsa_capture_power_spectrum K dev fuel cfg p s)
              = after_reads (triggered K s) (S k)).
Proof.
  rewrite capture_unfold. cbv zeta.
  destruct (capture_block_result dev <? 0) eqn:E.
  - apply Z.ltb_lt in E. intros _. left. split; [exact E|reflexivity].
  - apply Z.ltb_ge in E. cbn [fst snd].
    pose proof (read_loop_outcome fuel (triggered K s)) as H.
    destruct (fst (read_loop K dev fuel (triggered K s))) as [r|h|];
      cbn [status]; intros Hst; try discriminate.
    right. split; [exact E|]. destruct H as (_ & k & Hk & Hs & Hf & Hsnd).
    exists k. cbn [triggered reads_done] in *. auto.
Qed.

(** X16: the call returns 0 or -1 and nothing else.  When it returns 0
    the loop has stopped on a header whose packet type is IF, the one the
    dump labels type=IF; when it returns -1, or is still reading, it has
    stopped on none. *)
Theorem capture_return_values fuel cfg p s :
  let c := fst (wsa_capture_power_spectrum K dev fuel cfg p s) in
  match status c with
  | Some r =>
      (r = 0
       /\ exists h, header_after c = Some h
                    /\ packet_type h = IF_PACKET_TYPE K
                    /\ dump_type_label K h = TYPE_IF)
      \/ (r = -1 /\ header_after c = None)
  | None => header_after c = None
  end.
Proof.
  rewrite capture_unfold. cbv zeta.
  destruct (capture_block_result dev <? 0).
  - right. split; reflexivity.
  - cbn [fst].
    pose proof (read_loop_outcome fuel (triggered K s)) as H.
    destruct (fst (read_loop K dev fuel (triggered K s))) as [r|h|];
      cbn [status header_after].
    + destruct H as [-> _]. right. split; reflexivity.
    + left. split; [reflexivity|]. exists h. split; [reflexivity|].
      destruct H as (k & _ & _ & [_ Hi] & -> & _). split; [exact Hi|].
      unfold dump_type_label. apply Z.eqb_eq in Hi. now rewrite Hi.
    + reflexivity.
Qed.

(** X17: the pointer to the buffer is stored in [*buf] only when [*buf]
    already holds a pointer that is not null; a caller whose variable holds
    the null pointer gets the null pointer back, also when the call returns
    0. *)
Theorem capture_stores_buffer_pointer fuel cfg p s :
  bufp (fst (wsa_capture_power_spectrum K dev fuel cfg 0 s)) = 0
  /\ (p <> 0 ->
      bufp (fst (wsa_capture_power_spectrum K dev fuel cfg p s))
      = buf_addr cfg).
Proof.
  rewrite !capture_unfold. cbv zeta. split.
  - destruct (capture_block_result dev <? 0); [reflexivity|]. cbn [fst].
    destruct (fst (read_loop K dev fuel (triggered K s))); reflexivity.
  - intros Hp. apply Z.eqb_neq in Hp. rewrite Hp.
    destruct (capture_block_result dev <? 0); [reflexivity|]. cbn [fst].
    destruct (fst (read_loop K dev fuel (triggered K s))); reflexivity.
Qed.

(** X18: a header is labelled as of an unknown stream exactly when its
    stream id is none of the six ids of the library, and the label then
    carries that id. *)
Theorem dump_unknown_stream header :
  let known := [RECEIVER_STREAM_ID K; DIGITIZER_STREAM_ID K;
                EXTENSION_STREAM_ID K; I16Q16_DATA_STREAM_ID K;
                I16_DATA_STREAM_ID K; I32_DATA_STREAM_ID K] in
  (~ In (stream_id header) known ->
   dump_stream_label K header = UNKNOWN_STREAM (stream_id header))
  /\ (forall id,
        dump_stream_label K header = UNKNOWN_STREAM id ->
        id = stream_id header /\ ~ In (stream_id header) known).
Proof.
  intros known. subst known. unfold dump_stream_label. cbn [In].
  repeat match goal with
         | |- context [?a =? ?b] => destruct (Z.eqb_spec a b)
         end;
    (split; [intros H; try reflexivity; exfalso; apply H; auto 10
            |intros id H; try discriminate]).
  injection H as <-. split; [reflexivity|]. intros H. intuition congruence.
Qed.

(** *** The allocation *)

(** X19: how the allocation fails.  When the first [malloc] fails it
    returns -1 with [*pscfg] not assigned, and divides nothing, even for
    rbw = 0; with rbw = 0 otherwise it divides by zero; when the second
    [malloc] fails it returns -1 and leaves in [*pscfg] the pointer to the
    struct it has freed. *)
Theorem alloc_failures heap fstart fstop rbw mode :
  (malloc_cfg heap = 0 ->
   wsa_power_spectrum_alloc amp K heap fstart fstop rbw mode
   = Alloc_return (-1) Pscfg_unset)
  /\ (malloc_cfg heap <> 0 -> rbw = 0 ->
      wsa_power_spectrum_alloc amp K heap fstart fstop rbw mode
      = Alloc_div_by_zero)
  /\ (malloc_cfg heap <> 0 -> rbw <> 0 ->
      malloc_buf heap
        (sizeof_float
         * CInt.wrap (buflen_bits K) (CInt.u64 (fstop - fstart) / rbw)) = 0 ->
      wsa_power_spectrum_alloc amp K heap fstart fstop rbw mode
      = Alloc_return (-1) Pscfg_freed).
Proof.
  unfold wsa_power_spectrum_alloc. repeat split.
  - intros ->. reflexivity.
  - intros Hc ->. apply Z.eqb_neq in Hc. now rewrite Hc.
  - intros Hc Hr Hb. apply Z.eqb_neq in Hc, Hr. rewrite Hc, Hr.
    cbv zeta. now rewrite Hb.
Qed.


(** X21: the bins of a plan with fstop > fstart lie inside the span, and
    less than one bin is left over at its upper end: with n the bin count,
    fstart + n * rbw <= fstop < fstart + (n + 1) * rbw. *)
Theorem alloc_bins_cover_span heap fstart fstop rbw mode r cfg :
  CInt.is_u64 fstart -> CInt.is_u64 fstop ->
  fstart < fstop -> 0 < rbw ->
  (fstop - fstart) / rbw < 2 ^ buflen_bits K ->
  wsa_power_spectrum_alloc amp K heap fstart fstop rbw mode
  = Alloc_return r (Pscfg cfg) ->
  fstart + buflen cfg * rbw <= fstop < fstart + (buflen cfg + 1) * rbw.
Proof.
  unfold CInt.is_u64. intros H1 H2 Hlt Hr Hfit.
  unfold wsa_power_spectrum_alloc.
  destruct (malloc_cfg heap =? 0); [discriminate|].
  destruct (rbw =? 0); [discriminate|]. cbv zeta.
  destruct (malloc_buf heap _ =? 0); [discriminate|].
  intros H. injection H as <- <-. cbn [buflen].
  unfold CInt.u64. rewrite (CIntFacts.wrap_small 64) by lia.
  rewrite CIntFacts.wrap_small
    by (split; [apply Z.div_pos; lia|exact Hfit]).
  pose proof (Z.div_mod (fstop - fstart) rbw ltac:(lia)) as D.
  pose proof (Z.mod_pos_bound (fstop - fstart) rbw Hr) as B.
  nia.
Qed.

(** X22: for a plan that stops below its start the difference wraps around
    in 64 bits: the bin count is taken from 2^64 - (fstart - fstop). *)
Theorem alloc_reversed_plan heap fstart fstop rbw mode r cfg :
  CInt.is_u64 fstart -> CInt.is_u64 fstop ->
  fstop < fstart -> rbw <> 0 ->
  wsa_power_spectrum_alloc amp K heap fstart fstop rbw mode
  = Alloc_return r (Pscfg cfg) ->
  buflen cfg
  = CInt.wrap (buflen_bits K) ((2 ^ 64 - (fstart - fstop)) / rbw).
Proof.
  unfold CInt.is_u64. intros H1 H2 Hlt Hr.
  unfold wsa_power_spectrum_alloc.
  destruct (malloc_cfg heap =? 0); [discriminate|].
  destruct (rbw =? 0); [discriminate|]. cbv zeta.
  destruct (malloc_buf heap _ =? 0); [discriminate|].
  intros H. injection H as <- <-. cbn [buflen]. do 2 f_equal.
  unfold CInt.u64, CInt.wrap.
  symmetry. apply Z.mod_unique_pos with (q := -1); lia.
Qed.

End WithConstants.

(** *** Runs of the capture and of the allocation *)

Lemma capture_reads_forever_witness :
  status (fst (wsa_capture_power_spectrum wsa_lib MoreInputs.dev_context_only
                 5 (Inputs.cfg0 3) 0 dev_init)) = None
  /\ reads_done (snd (wsa_capture_power_spectrum wsa_lib
                        MoreInputs.dev_context_only 5 (Inputs.cfg0 3) 0
                        dev_init)) = 5%nat.
Proof.
  destruct (capture_reads_forever Z wsa_lib MoreInputs.dev_context_only 5
              (Inputs.cfg0 3) 0 dev_init) as [H1 H2].
  - simpl. lia.
  - intros j. unfold skipped. simpl. split; [lia|discriminate].
  - split; [exact H1|]. now rewrite H2.
Defined.

Lemma capture_result_is_final_witness :
  wsa_capture_power_spectrum wsa_lib Inputs.dev_context_first (3 + 7)
    (Inputs.cfg0 3) 0 dev_init
  = wsa_capture_power_spectrum wsa_lib Inputs.dev_context_first 3
      (Inputs.cfg0 3) 0 dev_init.
Proof.
  apply (capture_result_is_final Z wsa_lib Inputs.dev_context_first 3 7
           (Inputs.cfg0 3) 0 dev_init).
  simpl. discriminate.
Defined.

Lemma capture_success_inverts_witness :
  status (fst (wsa_capture_power_spectrum wsa_lib Inputs.dev_context_first 3
                 (Inputs.cfg0 3) 0 dev_init)) = Some 0
  /\ 0 <= capture_block_result Inputs.dev_context_first.
Proof.
  assert (H : status (fst (wsa_capture_power_spectrum wsa_lib
                             Inputs.dev_context_first 3 (Inputs.cfg0 3) 0
                             dev_init)) = Some 0) by reflexivity.
  split; [exact H|].
  exact (proj1 (capture_success_inverts Z wsa_lib Inputs.dev_context_first 3
                  (Inputs.cfg0 3) 0 dev_init H)).
Defined.

Lemma capture_failure_inverts_witness :
  status (fst (wsa_capture_power_spectrum wsa_lib Inputs.dev_read_fails 1
                 (Inputs.cfg0 3) 0 dev_init)) = Some (-1)
  /\ (capture_block_result Inputs.dev_read_fails < 0
      \/ 0 <= capture_block_result Inputs.dev_read_fails).
Proof.
  assert (H : status (fst (wsa_capture_power_spectrum wsa_lib
                             Inputs.dev_read_fails 1 (Inputs.cfg0 3) 0
                             dev_init)) = Some (-1)) by reflexivity.
  split; [exact H|].
  destruct (capture_failure_inverts Z wsa_lib Inputs.dev_read_fails 1
              (Inputs.cfg0 3) 0 dev_init H) as [[H1 _]|[H1 _]];
    [left|right]; exact H1.
Defined.


Lemma alloc_bins_cover_span_witness :
  Inputs.fstart0 < Inputs.fstop0
  /\ Inputs.fstart0 + 10000 * Inputs.rbw0 <= Inputs.fstop0
     < Inputs.fstart0 + (10000 + 1) * Inputs.rbw0.
Proof.
  split; [reflexivity|].
  apply (alloc_bins_cover_span Z wsa_lib Inputs.heap_ok Inputs.fstart0
           Inputs.fstop0 Inputs.rbw0 "SH" 0 (Inputs.cfg0 10000)).
  - unfold CInt.is_u64, Inputs.fstart0. lia.
  - unfold CInt.is_u64, Inputs.fstop0. lia.
  - reflexivity.
  - reflexivity.
  - reflexivity.
  - exact alloc_default_plan.
Defined.

Lemma alloc_reversed_plan_witness :
  2000000000 < 3000000000
  /\ exists cfg,
       wsa_power_spectrum_alloc Z wsa_lib Inputs.heap_ok
         3000000000 2000000000 100000 "SH"
       = Alloc_return 0 (Pscfg cfg)
       /\ buflen cfg
          = CInt.wrap 32 ((2 ^ 64 - (3000000000 - 2000000000)) / 100000).
Proof.
  split; [reflexivity|].
  pose proof (alloc_succeeds Z wsa_lib Inputs.heap_ok
                3000000000 2000000000 100000 "SH"
                ltac:(discriminate) ltac:(discriminate)
                ltac:(discriminate)) as Ha.
  eexists. split; [exact Ha|].
  apply (alloc_reversed_plan Z wsa_lib Inputs.heap_ok
           3000000000 2000000000 100000 "SH" 0 _).
  - unfold CInt.is_u64. lia.
  - unfold CInt.is_u64. lia.
  - reflexivity.
  - discriminate.
  - exact Ha.
Defined.

End SweepMore.

(** ** More on the driver *)

Module DriverMore.
Import Sweep PeakFind Driver.

Lemma nth_error_combine {A B : Type} (l1 : list A) : forall (l2 : list B) j a b,
  nth_error l1 j = Some a -> nth_error l2 j = Some b ->
  nth_error (combine l1 l2) j = Some (a, b).
Proof.
  induction l1 as [|x l1 IH]; intros [|y l2] [|j] a b H1 H2;
    simpl in *; try discriminate.
  - now injection H1 as ->; injection H2 as ->.
  - now apply IH.
Qed.

Section WithAmp.

Variable amp : Type.
Implicit Types (o : outputs amp).

(** X23: when the driver's loop stays inside the arrays it prints exactly
    [peaks] lines, and line j is the amplitude [pamp[j]] with the frequency
    [pfreq[j] + fstart], reduced modulo 2^64. *)
Theorem print_results_lines fstart peaks o lines :
  0 <= peaks ->
  print_results fstart peaks o = Some lines ->
  Z.of_nat (length lines) = peaks
  /\ forall j a f,
       Z.of_nat j < peaks ->
       nth_error (pamp o) j = Some a -> nth_error (pfreq o) j = Some f ->
       nth_error lines j = Some (a, CInt.u64 (f + fstart)).
Proof.
  intros Hp. unfold print_results.
  destruct (peaks <=? Z.of_nat (length (pamp o))) eqn:E1; [|discriminate].
  destruct (peaks <=? Z.of_nat (length (pfreq o))) eqn:E2; [|discriminate].
  apply Z.leb_le in E1, E2. cbn [andb]. intros H. injection H as <-. split.
  - rewrite length_firstn, length_combine, length_map. lia.
  - intros j a f Hj Ha Hf. rewrite nth_error_firstn.
    destruct (Nat.ltb_spec j (Z.to_nat peaks)); [|lia].
    apply nth_error_combine; [exact Ha|].
    exact (map_nth_error (fun f => CInt.u64 (f + fstart)) j (pfreq o) Hf).
Qed.

(** The loop reads past the end of an array exactly when more peaks are
    asked for than the array has entries. *)
Lemma print_results_out_of_bounds fstart peaks o :
  print_results fstart peaks o = None
  <-> Z.of_nat (length (pamp o)) < peaks
      \/ Z.of_nat (length (pfreq o)) < peaks.
Proof.
  unfold print_results.
  destruct (Z.leb_spec peaks (Z.of_nat (length (pamp o)))) as [L1|L1];
    destruct (Z.leb_spec peaks (Z.of_nat (length (pfreq o)))) as [L2|L2];
    cbn [andb]; split; intros Hx; try discriminate; try lia; auto.
Qed.

Variable K : wsa_constants.

(** What [main] prints once a config is allocated and the capture has
    returned. *)
Lemma main_sweep_returns
    dev heap fuel fstart fstop rbw peaks mode psbuf o s r pscfg st :
  wsa_power_spectrum_alloc amp K heap fstart fstop (CInt.u32 rbw) mode
  = Alloc_return r (Pscfg pscfg) ->
  status (fst (wsa_capture_power_spectrum K dev fuel pscfg psbuf s))
  = Some st ->
  fst (main_sweep K dev heap fuel fstart fstop rbw peaks mode psbuf o s)
  = match print_results fstart peaks o with
    | Some lines => Main_printed lines
    | None => Main_undefined
    end
  /\ snd (main_sweep K dev heap fuel fstart fstop rbw peaks mode psbuf o s)
     = snd (wsa_capture_power_spectrum K dev fuel pscfg psbuf s).
Proof.
  intros Ha Hs. unfold main_sweep. rewrite Ha. unfold bind.
  assert (Hr : (rbw =? 0) = false).
  { apply Z.eqb_neq. intros ->. revert Ha.
    unfold wsa_power_spectrum_alloc. change (CInt.u32 0) with 0.
    destruct (malloc_cfg heap =? 0); discriminate. }
  destruct (wsa_capture_power_spectrum K dev fuel pscfg psbuf s) as [c s'].
  cbn [fst snd] in *. rewrite Hs, Hr.
  rewrite PeakFindFacts.peakfind_eq.
  destruct (print_results fstart peaks o); split; reflexivity.
Qed.

(** X24: nothing bounds [peaks] by the 256 entries of the arrays of
    [main].  With arrays of [MAXPEAKS] entries, a config allocated and the
    capture returned, [main] prints its lines when [peaks] is at most
    [MAXPEAKS], and reads past the end of [pamp] and [pfreq] exactly when it
    is more. *)
Theorem main_peaks_beyond_maxpeaks
    dev heap fuel fstart fstop rbw peaks mode psbuf o s r pscfg st :
  length (pfreq o) = Z.to_nat MAXPEAKS ->
  length (pamp o) = Z.to_nat MAXPEAKS ->
  wsa_power_spectrum_alloc amp K heap fstart fstop (CInt.u32 rbw) mode
  = Alloc_return r (Pscfg pscfg) ->
  status (fst (wsa_capture_power_spectrum K dev fuel pscfg psbuf s))
  = Some st ->
  (fst (main_sweep K dev heap fuel fstart fstop rbw peaks mode psbuf o s)
   = Main_undefined <-> MAXPEAKS < peaks)
  /\ (peaks <= MAXPEAKS ->
      exists lines,
        fst (main_sweep K dev heap fuel fstart fstop rbw peaks mode psbuf o s)
        = Main_printed lines).
Proof.
  intros Hf Ha Halloc Hst.
  destruct (main_sweep_returns dev heap fuel fstart fstop rbw peaks mode
              psbuf o s r pscfg st Halloc Hst) as [-> _].
  pose proof (print_results_out_of_bounds fstart peaks o) as Hb.
  rewrite Hf, Ha in Hb. unfold MAXPEAKS in *.
  change (Z.of_nat (Z.to_nat 256)) with 256 in Hb.
  destruct (print_results fstart peaks o) as [lines|]; split.
  - split; [discriminate|]. intros H. destruct Hb as [_ Hb].
    discriminate (Hb (or_introl H)).
  - intros _. now exists lines.
  - split; [|reflexivity]. intros _. destruct Hb as [Hb _].
    destruct (Hb eq_refl); assumption.
  - intros H. destruct Hb as [Hb _]. destruct (Hb eq_refl); lia.
Qed.

(** X25: [main] looks neither at the result of the allocation nor at that
    of the capture.  Whenever the allocation hands out a config and the
    capture returns, with 0 or with -1, [main] goes on to print the first
    [peaks] entries of [pfreq] and [pamp] as they were before the sweep; the
    device has seen the calls of the capture and no other. *)
Theorem main_ignores_capture_result
    dev heap fuel fstart fstop rbw peaks mode psbuf o s r pscfg st :
  wsa_power_spectrum_alloc amp K heap fstart fstop (CInt.u32 rbw) mode
  = Alloc_return r (Pscfg pscfg) ->
  status (fst (wsa_capture_power_spectrum K dev fuel pscfg psbuf s))
  = Some st ->
  fst (main_sweep K dev heap fuel fstart fstop rbw peaks mode psbuf o s)
  = match print_results fstart peaks o with
    | Some lines => Main_printed lines
    | None => Main_undefined
    end
  /\ snd (main_sweep K dev heap fuel fstart fstop rbw peaks mode psbuf o s)
     = snd (wsa_capture_power_spectrum K dev fuel pscfg psbuf s).
Proof.
  apply main_sweep_returns.
Qed.

(** X26: when the allocation hands out no config -- a [malloc] fails, or
    the 32 low bits of rbw are 0, as for rbw = 4294967296 -- [main] has left
    defined behaviour before it asks anything of the device. *)
Theorem main_without_config
    dev heap fuel fstart fstop rbw peaks mode psbuf o s :
  malloc_cfg heap = 0
  \/ CInt.u32 rbw = 0
  \/ malloc_buf heap
       (sizeof_float
        * CInt.wrap (buflen_bits K)
            (CInt.u64 (fstop - fstart) / CInt.u32 rbw)) = 0 ->
  main_sweep K dev heap fuel fstart fstop rbw peaks mode psbuf o s
  = (Main_undefined, s).
Proof.
  intros H. unfold main_sweep, wsa_power_spectrum_alloc.
  destruct (Z.eqb_spec (malloc_cfg heap) 0) as [_|Hc]; [reflexivity|].
  destruct (Z.eqb_spec (CInt.u32 rbw) 0) as [_|Hr]; [reflexivity|].
  cbv zeta. destruct H as [H|[H|H]]; try contradiction.
  now rewrite H.
Qed.

End WithAmp.

(** *** Runs of the driver *)

Lemma print_results_lines_witness :
  0 <= 2
  /\ Z.of_nat (length [(0, 2000000000); (0, 2000000000)]) = 2.
Proof.
  split; [lia|].
  exact (proj1 (print_results_lines Z 2000000000 2 (Inputs.zeros 256)
                  [(0, 2000000000); (0, 2000000000)]
                  ltac:(lia) eq_refl)).
Defined.

Lemma main_ignores_capture_result_witness :
  status (fst (wsa_capture_power_spectrum wsa_lib Inputs.dev_read_fails 1
                 (Inputs.cfg0 10000) 0 dev_init)) = Some (-1)
  /\ fst (main_sweep wsa_lib Inputs.dev_read_fails Inputs.heap_ok 1
            Inputs.fstart0 Inputs.fstop0 Inputs.rbw0 1 "SH" 0
            (Inputs.zeros 256) dev_init)
     = Main_printed [(0, 2000000000)].
Proof.
  assert (H : status (fst (wsa_capture_power_spectrum wsa_lib
                             Inputs.dev_read_fails 1 (Inputs.cfg0 10000) 0
                             dev_init)) = Some (-1)) by reflexivity.
  split; [exact H|].
  exact (proj1 (main_ignores_capture_result Z wsa_lib Inputs.dev_read_fails
                  Inputs.heap_ok 1 Inputs.fstart0 Inputs.fstop0 Inputs.rbw0
                  1 "SH" 0 (Inputs.zeros 256) dev_init 0
                  (Inputs.cfg0 10000) (-1)
                  SweepFacts.alloc_default_plan H)).
Defined.

Lemma main_peaks_beyond_maxpeaks_witness :
  MAXPEAKS < 300
  /\ fst (main_sweep wsa_lib Inputs.dev_if_first Inputs.heap_ok 1
            Inputs.fstart0 Inputs.fstop0 Inputs.rbw0 300 "SH" 0
            (Inputs.zeros 256) dev_init)
     = Main_undefined.
Proof.
  assert (H : MAXPEAKS < 300) by reflexivity.
  split; [exact H|].
  destruct (main_peaks_beyond_maxpeaks Z wsa_lib Inputs.dev_if_first
              Inputs.heap_ok 1 Inputs.fstart0 Inputs.fstop0 Inputs.rbw0 300
              "SH" 0 (Inputs.zeros 256) dev_init 0 (Inputs.cfg0 10000) 0)
    as [[_ Hu] _].
  - reflexivity.
  - reflexivity.
  - exact SweepFacts.alloc_default_plan.
  - reflexivity.
  - exact (Hu H).
Defined.

Lemma main_without_config_witness :
  CInt.u32 4294967296 = 0
  /\ main_sweep wsa_lib Inputs.dev_if_first Inputs.heap_ok 1
       Inputs.fstart0 Inputs.fstop0 4294967296 1 "SH" 0
       (Inputs.zeros 256) dev_init
     = (Main_undefined, dev_init).
Proof.
  split; [reflexivity|].
  apply (main_without_config Z wsa_lib).
  right. left. reflexivity.
Defined.

End DriverMore.

(** ** The time since a mark *)

Module BenchFacts.
Import Bench.

Lemma to_int_small x : - 2 ^ 31 <= x < 2 ^ 31 -> CInt.to_int x = x.
Proof.
  intros H. unfold CInt.to_int, CInt.wrap. cbv zeta.
  destruct (Z_lt_le_dec x 0) as [Hn|Hp].
  - replace (x mod 2 ^ 32) with (x + 2 ^ 32)
      by (apply Z.mod_unique_pos with (q := -1); lia).
    destruct (Z.ltb_spec (x + 2 ^ 32) (2 ^ 31)); lia.
  - rewrite Z.mod_small by lia.
    destruct (Z.ltb_spec x (2 ^ 31)); lia.
Qed.

(** X27: for two times less than 2^31 seconds apart whose microseconds
    are below a million, [benchmark] prints the difference of the two in
    seconds and microseconds, the microseconds again below a million (it
    borrows a second when the microseconds of the mark are the larger); the
    seconds are not negative when the mark is not in the future. *)
Theorem benchmark_difference since now :
  0 <= tv_usec since < 1000000 ->
  0 <= tv_usec now < 1000000 ->
  - 2 ^ 31 < tv_sec now - tv_sec since < 2 ^ 31 ->
  let d := benchmark since now in
  0 <= snd d < 1000000
  /\ fst d * 1000000 + snd d = micros now - micros since
  /\ (micros since <= micros now -> 0 <= fst d).
Proof.
  intros Hs Hn Hd d. subst d. unfold benchmark, elapsed, micros. cbv zeta.
  destruct (Z.leb_spec (tv_usec since) (tv_usec now)) as [L|L];
    cbn [fst snd]; rewrite to_int_small by lia;
    unfold CInt.u32; rewrite CIntFacts.wrap_small by lia; lia.
Qed.

(** Beyond that the seconds shown are not the seconds elapsed: 2500000000
    seconds are shown as -1794967296. *)
Lemma benchmark_far_apart :
  benchmark MoreInputs.epoch MoreInputs.far = (-1794967296, 0).
Proof. reflexivity. Qed.

Lemma benchmark_difference_witness :
  0 <= tv_usec MoreInputs.mark < 1000000
  /\ benchmark MoreInputs.mark MoreInputs.later = (1, 200000)
  /\ fst (benchmark MoreInputs.mark MoreInputs.later) * 1000000
     + snd (benchmark MoreInputs.mark MoreInputs.later)
     = micros MoreInputs.later - micros MoreInputs.mark.
Proof.
  assert (H1 : 0 <= tv_usec MoreInputs.mark < 1000000) by (simpl; lia).
  assert (H2 : 0 <= tv_usec MoreInputs.later < 1000000) by (simpl; lia).
  assert (H3 : - 2 ^ 31 < tv_sec MoreInputs.later - tv_sec MoreInputs.mark
               < 2 ^ 31) by (simpl; lia).
  split; [exact H1|]. split; [reflexivity|].
  exact (proj1 (proj2 (benchmark_difference MoreInputs.mark MoreInputs.later
                         H1 H2 H3))).
Defined.

End BenchFacts.
